(** * Drill-permit scraper: the result-table parser, the search session
    driver and the plat retrieval orchestrator of [src/scraper.py],
    embedded as Rocq functions, with the properties of the specification
    stated and settled against them.

    Conventions of the embedding:
    - a Python [str] is the list of its code points ([pystr]);
    - a Python exception is a value of [exn]; code that may raise returns a
      [pyresult];
    - a BeautifulSoup tree is a [node];
    - the [dict] of a record is a [gmap]; a decoded JSON object keeps its
      items in their order;
    - calls to the browser and to the filesystem are answered by an
      environment and recorded, with their arguments, in a log. *)

From Stdlib Require Import NArith ZArith Ascii String List Bool Lia.
From stdpp Require Import base option list gmap.

Set Warnings "-register-all".
Open Scope list_scope.

(* ===================================================================== *)
(** ** Python strings *)
(* ===================================================================== *)

Abbreviation pystr := (list N).

(** A literal: the code points of an ASCII string. *)
Definition py (s : string) : pystr :=
  List.map N_of_ascii (list_ascii_of_string s).

(** [str.isspace] on one code point. *)
Definition isspace (c : N) : bool :=
  ((9 <=? c) && (c <=? 13) || (28 <=? c) && (c <=? 32) || (c =? 133)
   || (c =? 160) || (c =? 5760) || (8192 <=? c) && (c <=? 8202)
   || (c =? 8232) || (c =? 8233) || (c =? 8239) || (c =? 8287)
   || (c =? 12288))%N.

Fixpoint lstrip (s : pystr) : pystr :=
  match s with
  | c :: r => if isspace c then lstrip r else s
  | [] => []
  end.

Definition rstrip (s : pystr) : pystr := rev (lstrip (rev s)).

(** [s.strip()] *)
Definition strip (s : pystr) : pystr := rstrip (lstrip s).

(** [s.replace(old, new)] for a one-character [old]. *)
Definition replace (old : N) (new : pystr) (s : pystr) : pystr :=
  flat_map (fun c => if (c =? old)%N then new else [c]) s.

(** [s.split()]: the maximal runs of non-whitespace; [cur] is the run being
    read. *)
Fixpoint split_from (cur : pystr) (s : pystr) : list pystr :=
  match s with
  | [] => match cur with [] => [] | _ => [cur] end
  | c :: r =>
      if isspace c
      then match cur with [] => split_from [] r | _ => cur :: split_from [] r end
      else split_from (cur ++ [c]) r
  end.

Definition split (s : pystr) : list pystr := split_from [] s.

(** [sep.join(l)] *)
Fixpoint join (sep : pystr) (l : list pystr) : pystr :=
  match l with
  | [] => []
  | [x] => x
  | x :: r => x ++ sep ++ join sep r
  end.

Fixpoint startswith (p s : pystr) : bool :=
  match p, s with
  | [], _ => true
  | a :: p', b :: s' => (a =? b)%N && startswith p' s'
  | _ :: _, [] => false
  end.

(** [p in s] *)
Fixpoint contains (p s : pystr) : bool :=
  startswith p s || match s with [] => false | _ :: r => contains p r end.

Definition endswith_sep (s : pystr) : bool :=
  match last s with Some c => (c =? 47)%N | None => false end.

(** [os.path.join(a, b)] of [posixpath]. *)
Definition path_join (a b : pystr) : pystr :=
  if startswith (py "/") b then b
  else if bool_decide (a = []) || endswith_sep a then a ++ b
  else a ++ py "/" ++ b.

(* ===================================================================== *)
(** ** Exceptions and results *)
(* ===================================================================== *)

(** The exception classes that occur; [Error] stands for any other subclass
    of [Exception] (a browser timeout, an [OSError], ...). *)
Inductive exn :=
| IndexError | KeyError | AttributeError | ValueError | JSONDecodeError
| Error (name : pystr).

#[global] Instance exn_eq_dec : EqDecision exn.
Proof. solve_decision. Defined.

Inductive pyresult (A : Type) :=
| Ok (a : A)
| Raise (e : exn).
Arguments Ok {A} a.
Arguments Raise {A} e.

#[global] Instance pyresult_ret : MRet pyresult := @Ok.
#[global] Instance pyresult_bind : MBind pyresult := fun A B f r =>
  match r with Ok a => f a | Raise e => Raise e end.

(** [try: body  except (classes): handler] *)
Definition try_except {A} (body : pyresult A) (classes : list exn)
    (handler : pyresult A) : pyresult A :=
  match body with
  | Ok a => Ok a
  | Raise e => if bool_decide (e ∈ classes) then handler else Raise e
  end.

(* ===================================================================== *)
(** ** Python values: what [json.loads] returns and what a record holds *)
(* ===================================================================== *)

Inductive pyval :=
| VNone
| VBool (b : bool)
| VInt (z : Z)
| VFloat (literal : pystr)
| VStr (s : pystr)
| VList (l : list pyval)
| VDict (items : list (pystr * pyval)).

(** [d.get(key, default)] on the items of a dict. *)
Fixpoint dict_get (items : list (pystr * pyval)) (key : pystr)
    (default : pyval) : pyval :=
  match items with
  | [] => default
  | (k, v) :: r => if bool_decide (k = key) then v else dict_get r key default
  end.

(** [d[key] = v] on the items of a dict: the first assignment fixes the
    position, a later one replaces the value. *)
Fixpoint dict_set (items : list (pystr * pyval)) (key : pystr) (v : pyval)
    : list (pystr * pyval) :=
  match items with
  | [] => [(key, v)]
  | (k, w) :: r =>
      if bool_decide (k = key) then (k, v) :: r else (k, w) :: dict_set r key v
  end.

(** [value.get('url', '')]: only a dict has a [get]. *)
Definition value_get (value : pyval) (key : pystr) (default : pyval)
    : pyresult pyval :=
  match value with
  | VDict items => Ok (dict_get items key default)
  | _ => Raise AttributeError
  end.

(* ===================================================================== *)
(** ** The parsed page *)
(* ===================================================================== *)

(** A BeautifulSoup tree. A tag carries its name, the tokens of its
    [class] attribute (bs4 keeps that attribute as a list), its other
    attributes and its contents; [Text] is a string that counts towards
    [.text]. *)
Inductive node :=
| Text (s : pystr)
| Tag (name : pystr) (classes : list pystr) (attrs : list (pystr * pystr))
      (contents : list node).

Definition contents_of (n : node) : list node :=
  match n with Tag _ _ _ cs => cs | Text _ => [] end.

Definition is_tag (name : pystr) (n : node) : bool :=
  match n with Tag nm _ _ _ => bool_decide (nm = name) | Text _ => false end.

Definition has_class (c : pystr) (n : node) : bool :=
  match n with Tag _ cls _ _ => bool_decide (c ∈ cls) | Text _ => false end.

(** Everything below [n], in document order. *)
Fixpoint descendants (n : node) : list node :=
  match n with
  | Text _ => []
  | Tag _ _ _ cs => flat_map (fun c => c :: descendants c) cs
  end.

(** [n.text] *)
Fixpoint text (n : node) : pystr :=
  match n with
  | Text s => s
  | Tag _ _ _ cs => flat_map text cs
  end.

(** [n.find_all(name)] *)
Definition find_all (name : pystr) (n : node) : list node :=
  List.filter (is_tag name) (descendants n).

(** [n.find_all(name, recursive=False)] *)
Definition find_all_children (name : pystr) (n : node) : list node :=
  List.filter (is_tag name) (contents_of n).

(** [n.find(name)] *)
Definition find (name : pystr) (n : node) : option node :=
  head (find_all name n).

(** [n.find(name, {'class': c})] *)
Definition find_class (name c : pystr) (n : node) : option node :=
  head (List.filter (fun d => is_tag name d && has_class c d) (descendants n)).

(** [tag[key]] *)
Fixpoint assoc (key : pystr) (l : list (pystr * pystr)) : option pystr :=
  match l with
  | [] => None
  | (k, v) :: r => if bool_decide (k = key) then Some v else assoc key r
  end.

Definition getitem (n : node) (key : pystr) : pyresult pystr :=
  match n with
  | Tag _ _ attrs _ =>
      match assoc key attrs with Some v => Ok v | None => Raise KeyError end
  | Text _ => Raise KeyError
  end.

(** [l[i]] *)
Definition index {A} (l : list A) (i : nat) : pyresult A :=
  match l !! i with Some x => Ok x | None => Raise IndexError end.

(** [l[i] = x] *)
Definition setitem {A} (l : list A) (i : nat) (x : A) : pyresult (list A) :=
  if decide (i < length l) then Ok (<[i:=x]> l) else Raise IndexError.

(** [l.insert(i, x)] *)
Definition insert_at {A} (i : nat) (x : A) (l : list A) : list A :=
  take i l ++ x :: drop i l.

(* ===================================================================== *)
(** ** The County Code Registry *)
(* ===================================================================== *)

Definition get_county_codes : gmap pystr pystr :=
  list_to_map
    [ (py "ANDREWS", py "003"); (py "ECTOR", py "135");
      (py "MIDLAND", py "329"); (py "MARTIN", py "317");
      (py "HOWARD", py "227"); (py "GLASSCOCK", py "173");
      (py "REAGAN", py "383"); (py "UPTON", py "461");
      (py "CRANE", py "103"); (py "WARD", py "475");
      (py "WINKLER", py "495"); (py "LOVING", py "301");
      (py "REEVES", py "389"); (py "PECOS", py "371") ].

(* ===================================================================== *)
(** ** The Result-Table Parser *)
(* ===================================================================== *)

(** A permit record under construction: the dict [permit_data]. *)
Abbreviation permit := (gmap pystr pyval).

Section Parser.

(** [json.loads]: the decoder of the standard library. The parser is
    stated for any decoder; [Json.loads] below is one to run it with. *)
Variable json_loads : pystr -> pyresult pyval.

(** Lines 61-67: the scan of the options of the selection control.
    [plat_link] is the value the variable holds when the option is
    reached. *)
Fixpoint scan_options (options : list node) (plat_link : pyval)
    : pyresult pyval :=
  match options with
  | [] => Ok plat_link
  | option :: rest =>
      if contains (py "Images") (text option)
      then
        plat_link' ←
          try_except
            (value ← getitem option (py "value");
             value_json ← json_loads value;
             value_get value_json (py "url") (VStr []))
            [JSONDecodeError; KeyError]
            (Ok plat_link);
        scan_options rest plat_link'
      else scan_options rest plat_link
  end.

(** Line 71-72: the text of a cell, normalised. *)
Definition cell_text (c : node) : pystr :=
  let text_content :=
    strip (replace 160 (py " ")
             (replace 13 [] (replace 10 (py " ") (strip (text c))))) in
  join (py " ") (split text_content).

(** Lines 70-72: [for i, header in enumerate(headers[2:], start=1)]. *)
Fixpoint fill_columns (cols : list node) (i : nat) (names : list pystr)
    (permit_data : permit) : pyresult permit :=
  match names with
  | [] => Ok permit_data
  | header :: rest =>
      c ← index cols i;
      fill_columns cols (S i) rest (<[header := VStr (cell_text c)]> permit_data)
  end.

(** Lines 58-67: [plat_link], from the first cell of a row. *)
Definition plat_link_of (first : node) : pyresult pyval :=
  match find (py "select") first with
  | Some links_select =>
      scan_options (find_all (py "option") links_select) (VStr [])
  | None => Ok (VStr [])
  end.

(** Lines 49-74: the body of the loop over the data rows; [None] is the
    [continue] of a row without cells. *)
Definition parse_row (headers : list pystr) (row : node)
    : pyresult (option permit) :=
  let cols := find_all (py "td") row in
  match cols with
  | [] => Ok None
  | first :: _ =>
      let api_no :=
        match find (py "a") first with
        | Some api_no_tag => strip (text api_no_tag)
        | None => []
        end in
      let permit_data : permit := <[py "API NO." := VStr api_no]> ∅ in
      plat_link ← plat_link_of first;
      let permit_data := <[py "PlatLink" := plat_link]> permit_data in
      permit_data ← fill_columns cols 1 (drop 2 headers) permit_data;
      Ok (Some permit_data)
  end.

(** Lines 48-74: the loop over the data rows. *)
Fixpoint rows_loop (headers : list pystr) (data_rows : list node)
    (permits_on_page : list permit) : pyresult (list permit) :=
  match data_rows with
  | [] => Ok permits_on_page
  | row :: rest =>
      r ← parse_row headers row;
      rows_loop headers rest
        (match r with
         | Some permit_data => permits_on_page ++ [permit_data]
         | None => permits_on_page
         end)
  end.

Definition parse_results_table (soup : node) : pyresult (list permit) :=
  match find_class (py "table") (py "DataGrid") soup with
  | None => Ok []
  | Some results_table =>
      match find (py "tbody") results_table with
      | None => Ok []
      | Some table_body =>
          let rows := find_all_children (py "tr") table_body in
          if decide (length rows < 3) then Ok [] else
          header_row ← index rows 1;
          let headers :=
            List.map (fun th => strip (text th))
                     (find_all (py "th") header_row) in
          headers ← setitem headers 0 (py "API NO.");
          let headers := insert_at 1 (py "PlatLink") headers in
          let data_rows := drop 2 rows in
          rows_loop headers data_rows []
      end
  end.

End Parser.

(* ===================================================================== *)
(** ** A JSON decoder to run the parser with *)
(* ===================================================================== *)

(** The grammar [json.loads] accepts on a [str]: objects (a repeated name
    keeps its first position and its last value), arrays, strings with
    their escapes, numbers (an integer as [VInt], any other number as the
    text of its literal), [true], [false], [null], [NaN], [Infinity] and
    [-Infinity]. *)
Module Json.

Definition is_ws (c : N) : bool :=
  ((c =? 32) || (c =? 9) || (c =? 10) || (c =? 13))%N.

Fixpoint skip_ws (s : pystr) : pystr :=
  match s with
  | c :: r => if is_ws c then skip_ws r else s
  | [] => []
  end.

Definition is_digit (c : N) : bool := ((48 <=? c) && (c <=? 57))%N.

Definition hex_value (c : N) : option N :=
  if is_digit c then Some (c - 48)%N
  else if ((97 <=? c) && (c <=? 102))%N then Some (c - 87)%N
  else if ((65 <=? c) && (c <=? 70))%N then Some (c - 55)%N
  else None.

Definition hex4 (a b c d : N) : option N :=
  x ← hex_value a; y ← hex_value b; z ← hex_value c; w ← hex_value d;
  Some (((x * 16 + y) * 16 + z) * 16 + w)%N.

(** The characters of a string up to its closing quote; [acc] is what
    was read. A high surrogate escape followed by a low one is one
    character. *)
Fixpoint scan_string (s : pystr) (acc : pystr) : option (pystr * pystr) :=
  match s with
  | [] => None
  | c :: r =>
      if (c =? 34)%N then Some (acc, r)
      else if (c =? 92)%N then
        match r with
        | [] => None
        | e :: r1 =>
            if (e =? 34)%N then scan_string r1 (acc ++ [34%N])
            else if (e =? 92)%N then scan_string r1 (acc ++ [92%N])
            else if (e =? 47)%N then scan_string r1 (acc ++ [47%N])
            else if (e =? 98)%N then scan_string r1 (acc ++ [8%N])
            else if (e =? 102)%N then scan_string r1 (acc ++ [12%N])
            else if (e =? 110)%N then scan_string r1 (acc ++ [10%N])
            else if (e =? 114)%N then scan_string r1 (acc ++ [13%N])
            else if (e =? 116)%N then scan_string r1 (acc ++ [9%N])
            else if (e =? 117)%N then
              match r1 with
              | h1 :: h2 :: h3 :: h4 :: r2 =>
                  match hex4 h1 h2 h3 h4 with
                  | None => None
                  | Some u =>
                      match r2 with
                      | b :: v :: l1 :: l2 :: l3 :: l4 :: r3 =>
                          match hex4 l1 l2 l3 l4 with
                          | Some lo =>
                              if ((b =? 92) && (v =? 117) && (55296 <=? u)
                                  && (u <=? 56319) && (56320 <=? lo)
                                  && (lo <=? 57343))%N
                              then scan_string r3
                                     (acc ++ [(65536 + ((u - 55296) * 1024
                                                        + (lo - 56320)))%N])
                              else scan_string r2 (acc ++ [u])
                          | None => scan_string r2 (acc ++ [u])
                          end
                      | _ => scan_string r2 (acc ++ [u])
                      end
                  end
              | _ => None
              end
            else None
        end
      else if (c <? 32)%N then None
      else scan_string r (acc ++ [c])
  end.

(** The leading decimal digits of [s], and the rest. *)
Fixpoint digits (s : pystr) : pystr * pystr :=
  match s with
  | c :: r =>
      if is_digit c then let '(ds, rest) := digits r in (c :: ds, rest)
      else ([], s)
  | [] => ([], [])
  end.

Definition Z_of_digits (ds : pystr) : Z :=
  fold_left (fun z c => (z * 10 + Z.of_N (c - 48))%Z) ds 0%Z.

Definition scan_number (s : pystr) : option (pyval * pystr) :=
  let '(sign, s1) :=
    match s with
    | c :: r => if (c =? 45)%N then ([45%N], r) else ([], s)
    | [] => ([], s)
    end in
  '(int, s2) ←
    match s1 with
    | c :: r =>
        if (c =? 48)%N then Some ([48%N], r)
        else if is_digit c then Some (digits s1)
        else None
    | [] => None
    end;
  let '(frac, s3) :=
    match s2 with
    | c :: r =>
        if (c =? 46)%N
        then match digits r with
             | ([], _) => ([], s2)
             | (ds, rest) => (c :: ds, rest)
             end
        else ([], s2)
    | [] => ([], s2)
    end in
  let '(exp, s4) :=
    match s3 with
    | c :: r =>
        if ((c =? 101) || (c =? 69))%N
        then
          let '(sg, r1) :=
            match r with
            | d :: r' =>
                if ((d =? 43) || (d =? 45))%N then ([d], r') else ([], r)
            | [] => ([], r)
            end in
          match digits r1 with
          | ([], _) => ([], s3)
          | (ds, rest) => (c :: sg ++ ds, rest)
          end
        else ([], s3)
    | [] => ([], s3)
    end in
  match frac, exp with
  | [], [] =>
      Some (VInt (match sign with
                  | [] => Z_of_digits int
                  | _ => - Z_of_digits int
                  end), s4)
  | _, _ => Some (VFloat (sign ++ int ++ frac ++ exp), s4)
  end.

Definition literal (word : string) (v : pyval) (s : pystr)
    : option (pyval * pystr) :=
  if startswith (py word) s
  then Some (v, drop (length (py word)) s) else None.

Fixpoint scan_value (fuel : nat) (s : pystr) : option (pyval * pystr) :=
  match fuel with
  | O => None
  | S n =>
      match s with
      | [] => None
      | c :: r =>
          if (c =? 34)%N then
            '(str, r') ← scan_string r []; Some (VStr str, r')
          else if (c =? 123)%N then
            match skip_ws r with
            | c' :: r' =>
                if (c' =? 125)%N then Some (VDict [], r')
                else scan_members n (skip_ws r) []
            | [] => None
            end
          else if (c =? 91)%N then
            match skip_ws r with
            | c' :: r' =>
                if (c' =? 93)%N then Some (VList [], r')
                else scan_items n (skip_ws r) []
            | [] => None
            end
          else
            match literal "null" VNone s with
            | Some x => Some x
            | None =>
            match literal "true" (VBool true) s with
            | Some x => Some x
            | None =>
            match literal "false" (VBool false) s with
            | Some x => Some x
            | None =>
            match literal "NaN" (VFloat (py "NaN")) s with
            | Some x => Some x
            | None =>
            match literal "Infinity" (VFloat (py "Infinity")) s with
            | Some x => Some x
            | None =>
            match literal "-Infinity" (VFloat (py "-Infinity")) s with
            | Some x => Some x
            | None => scan_number s
            end end end end end end
      end
  end
with scan_items (fuel : nat) (s : pystr) (acc : list pyval)
    : option (pyval * pystr) :=
  match fuel with
  | O => None
  | S n =>
      '(v, r) ← scan_value n s;
      match skip_ws r with
      | c :: r' =>
          if (c =? 93)%N then Some (VList (acc ++ [v]), r')
          else if (c =? 44)%N then scan_items n (skip_ws r') (acc ++ [v])
          else None
      | [] => None
      end
  end
with scan_members (fuel : nat) (s : pystr) (acc : list (pystr * pyval))
    : option (pyval * pystr) :=
  match fuel with
  | O => None
  | S n =>
      match s with
      | c :: r =>
          if (c =? 34)%N then
            '(key, r1) ← scan_string r [];
            match skip_ws r1 with
            | c1 :: r2 =>
                if (c1 =? 58)%N then
                  '(v, r3) ← scan_value n (skip_ws r2);
                  match skip_ws r3 with
                  | c3 :: r4 =>
                      if (c3 =? 125)%N
                      then Some (VDict (dict_set acc key v), r4)
                      else if (c3 =? 44)%N
                      then scan_members n (skip_ws r4) (dict_set acc key v)
                      else None
                  | [] => None
                  end
                else None
            | [] => None
            end
          else None
      | [] => None
      end
  end.

(** [json.loads(s)] *)
Definition loads (s : pystr) : pyresult pyval :=
  if startswith [65279%N] s then Raise JSONDecodeError
  else
    match scan_value (2 * length s + 2) (skip_ws s) with
    | Some (v, r) =>
        match skip_ws r with
        | [] => Ok v
        | _ => Raise JSONDecodeError
        end
    | None => Raise JSONDecodeError
    end.

End Json.

(* ===================================================================== *)
(** ** Sessions: the browser and the filesystem *)
(* ===================================================================== *)

(** One call to the outside, with its arguments. *)
Inductive call :=
| PlaywrightStart
| PlaywrightStop
| Launch (headless : bool)
| NewContext
| NewPage
| BrowserClose
| Goto (url : pystr) (timeout : N)
| SelectOption (selector : pystr) (values : list pystr)
| Fill (selector value : pystr)
| Click (selector : pystr)
| WaitForSelector (selector : pystr)
| WaitForLoadState (state : pystr)
| Content
| Count (selector : pystr)
| Screenshot (path : pystr)
| WaitVisible (selector : pystr)
| EvaluateAll (selector : pystr)
| ScrollIntoView (selector : pystr)
| AwaitDownload
| SaveAs (path : pystr)
| MakeDirs (path : pystr)
| PathExists (path : pystr).

#[global] Instance call_eq_dec : EqDecision call.
Proof. solve_decision. Defined.

(** The calls that drive the browser; the others only touch the
    filesystem. *)
Definition is_session_call (c : call) : bool :=
  match c with
  | MakeDirs _ | PathExists _ => false
  | _ => true
  end.

(** Code that talks to the outside. The state is the variable the code
    mutates ([V]) and the log of the calls made so far. [None] is a loop
    that is still running when its fuel is spent. *)
Definition session (V A : Type) : Type :=
  V * list call -> option (pyresult A * (V * list call)).

#[global] Instance session_ret {V} : MRet (session V) :=
  fun A a st => Some (Ok a, st).

#[global] Instance session_bind {V} : MBind (session V) := fun A B f m st =>
  match m st with
  | Some (Ok a, st') => f a st'
  | Some (Raise e, st') => Some (Raise e, st')
  | None => None
  end.

(** The call is made, the log records it, the environment answers. *)
Definition ask {V A} (c : call) (answer : pyresult A) : session V A :=
  fun st => Some (answer, (st.1, st.2 ++ [c])).

Definition lift {V A} (r : pyresult A) : session V A :=
  fun st => Some (r, st).

Definition get {V} : session V V := fun st => Some (Ok st.1, st).

Definition update {V} (f : V -> V) : session V unit :=
  fun st => Some (Ok tt, (f st.1, st.2)).

Definition running {V A} : session V A := fun _ => None.

(** [try: body  except Exception as e: handler e] *)
Definition except {V A} (body : session V A) (handler : exn -> session V A)
    : session V A :=
  fun st =>
    match body st with
    | Some (Raise e, st') => handler e st'
    | r => r
    end.

(** [try: body  finally: cleanup], and the exit of a [with] block. An
    exception of [cleanup] replaces the outcome of [body]. *)
Definition finally {V A} (body : session V A) (cleanup : session V unit)
    : session V A :=
  fun st =>
    match body st with
    | Some (r, st') =>
        match cleanup st' with
        | Some (Ok _, st'') => Some (r, st'')
        | Some (Raise e, st'') => Some (Raise e, st'')
        | None => None
        end
    | None => None
    end.

Definition dq : pystr := [34%N].

(* ===================================================================== *)
(** ** The Search Session Driver *)
(* ===================================================================== *)

Definition RRC_URL : pystr :=
  py "https://webapps2.rrc.texas.gov/EWA/drillingPermitsQueryAction.do".

(** The configuration as [main.py] hands it over ([model_dump] of
    [ScrapeConfig]). *)
Record config := {
  counties : list pystr;
  date_range : gmap pystr pystr
}.

(** [d[key]] *)
Definition lookup_key (d : gmap pystr pystr) (key : pystr) : pyresult pystr :=
  match d !! key with Some v => Ok v | None => Raise KeyError end.

(** What the site answers while one result page is shown. [content_r] is
    the page as BeautifulSoup reads it. *)
Record page_answers := {
  content_r : pyresult node;
  count_r : pyresult nat;
  next_click_r : pyresult unit;
  settle_r : pyresult unit
}.

(** What the browser answers to the calls of [scrape_permits]. *)
Record search_env := {
  s_start : pyresult unit;
  s_launch : pyresult unit;
  s_new_page : pyresult unit;
  s_goto : pyresult unit;
  s_select : pyresult unit;
  s_fill_from : pyresult unit;
  s_fill_to : pyresult unit;
  s_submit : pyresult unit;
  s_results : pyresult unit;
  s_pages : nat -> page_answers;
  s_screenshot : pyresult unit;
  s_close : pyresult unit;
  s_stop : pyresult unit
}.

Definition county_select : pystr :=
  py "select[name=" ++ dq ++ py "searchArgs.countyCodeHndlr.selectedCodes"
  ++ dq ++ py "]".
Definition from_input : pystr :=
  py "input[name=" ++ dq ++ py "searchArgs.approvedDtFromHndlr.inputValue"
  ++ dq ++ py "]".
Definition to_input : pystr :=
  py "input[name=" ++ dq ++ py "searchArgs.approvedDtToHndlr.inputValue"
  ++ dq ++ py "]".
Definition submit_button : pystr :=
  py "input[type=" ++ dq ++ py "submit" ++ dq ++ py "][value=" ++ dq
  ++ py "Submit" ++ dq ++ py "]".
Definition next_link : pystr :=
  py "a:has-text(" ++ dq ++ py "[Next>]" ++ dq ++ py ")".

(** Line 83. *)
Definition selected_county_codes (config : config) : list pystr :=
  omap (fun county => get_county_codes !! county) (counties config).

Section Search.

Variable json_loads : pystr -> pyresult pyval.
Variable env : search_env.

(** Lines 97-106: up to the first result page. *)
Definition submit_search (config : config) : session (list permit) unit :=
  ask (Goto RRC_URL 60000) (s_goto env);;
  ask (SelectOption county_select (selected_county_codes config))
      (s_select env);;
  from ← lift (lookup_key (date_range config) (py "from"));
  ask (Fill from_input from) (s_fill_from env);;
  to ← lift (lookup_key (date_range config) (py "to"));
  ask (Fill to_input to) (s_fill_to env);;
  ask (Click submit_button) (s_submit env);;
  ask (WaitForSelector (py "table.DataGrid")) (s_results env).

(** Lines 110-131: [while True]. One unit of fuel is one result page. *)
Fixpoint page_walk (fuel page_num : nat) : session (list permit) unit :=
  match fuel with
  | O => running
  | S fuel =>
      let answers := s_pages env page_num in
      soup ← ask Content (content_r answers);
      permits_on_page ← lift (parse_results_table json_loads soup);
      match permits_on_page with
      | [] => mret tt
      | _ =>
          update (fun all_permits_data => all_permits_data ++ permits_on_page);;
          n ← ask (Count next_link) (count_r answers);
          if decide (0 < n)
          then
            ask (Click next_link) (next_click_r answers);;
            ask (WaitForLoadState (py "networkidle")) (settle_r answers);;
            page_walk fuel (S page_num)
          else mret tt
      end
  end.

(** Lines 97-131: the body of the [try]. *)
Definition session_steps (fuel : nat) (config : config)
    : session (list permit) unit :=
  submit_search config;; page_walk fuel 1.

(** Lines 89-141, reached with at least one county code. *)
Definition search_session (fuel : nat) (config : config)
    : session (list permit) (list permit) :=
  ask PlaywrightStart (s_start env);;
  finally
    (ask (Launch true) (s_launch env);;
     ask NewPage (s_new_page env);;
     finally
       (except (session_steps fuel config)
               (fun e => ask (Screenshot (py "error_screenshot.png"))
                             (s_screenshot env)))
       (ask BrowserClose (s_close env)))
    (ask PlaywrightStop (s_stop env));;
  get.

(** The result is the frame of the accumulated records; the state it
    comes with is [all_permits_data] and the log of the calls. *)
Definition scrape_permits (fuel : nat) (config : config)
    : option (pyresult (list permit) * (list permit * list call)) :=
  match selected_county_codes config with
  | [] => Some (Ok [], ([], []))
  | _ => search_session fuel config ([], [])
  end.

End Search.

(* ===================================================================== *)
(** ** The Plat Retrieval Orchestrator *)
(* ===================================================================== *)

(** A row of the frame. The cells are strings, as the parser writes them
    for every column but the link; a column the frame does not have is a
    key that is absent. The rows of one frame share their columns: a
    cell that is missing in some rows only, which pandas holds as NaN, is
    outside the frames described here. *)
Abbreviation row := (gmap pystr pystr).

(** The steps taken for one sub-document. *)
Inductive sub_step :=
| Scroll | TriggerVisible | TriggerClick | MenuVisible | DownloadWellLog
| LinkVisible | LinkClick | Downloaded | Saved | CloseDoc.

(** What the outside answers while one record is visited. *)
Record visit := {
  makedirs_r : pyresult unit;
  exists_r : bool;
  goto_r : pyresult unit;
  action_menu_r : pyresult unit;
  record_numbers_r : pyresult (list pystr);
  sub_r : nat -> sub_step -> pyresult unit
}.

Record retrieval_env := {
  r_start : pyresult unit;
  r_launch : pyresult unit;
  r_context : pyresult unit;
  r_page : pyresult unit;
  r_visits : nat -> visit;
  r_close : pyresult unit;
  r_stop : pyresult unit
}.

(** [not v] of a cell that may be missing. *)
Definition truthy (v : option pystr) : bool :=
  match v with Some (_ :: _) => true | _ => false end.

Definition trigger (record_num : pystr) : pystr :=
  py ".showActionMenu[recordnumber=" ++ dq ++ record_num ++ dq ++ py "]".
Definition download_well_log : pystr :=
  py "#imageMenu a:has-text(" ++ dq ++ py "Download Well Log" ++ dq ++ py ")".
Definition download_link : pystr := py "a.image.download, a.download".

(** Line 171. *)
Definition download_dir_of (county : pystr) : pystr :=
  path_join (path_join (py "data") (py "plat_files")) county.

(** Line 173: the path that is tested. *)
Definition target_path (county api_no : pystr) : pystr :=
  path_join (download_dir_of county) (api_no ++ py ".tif").

(** Lines 215-216: the path that is written. *)
Definition saved_path (county api_no record_num : pystr) : pystr :=
  path_join (download_dir_of county)
            (api_no ++ py "_" ++ record_num ++ py ".tif").

(** Lines 195-225: the loop over the record numbers; [j] counts them. *)
Fixpoint subdocs_loop (v : visit) (county api_no : pystr) (j : nat)
    (record_numbers : list pystr) : session (list pystr) unit :=
  match record_numbers with
  | [] => mret tt
  | record_num :: rest =>
      let btn := trigger record_num in
      ask (ScrollIntoView btn) (sub_r v j Scroll);;
      ask (WaitVisible btn) (sub_r v j TriggerVisible);;
      ask (Click btn) (sub_r v j TriggerClick);;
      ask (WaitVisible (py "#imageMenu")) (sub_r v j MenuVisible);;
      ask (Click download_well_log) (sub_r v j DownloadWellLog);;
      ask (WaitVisible download_link) (sub_r v j LinkVisible);;
      let file_path := saved_path county api_no record_num in
      ask (Click download_link) (sub_r v j LinkClick);;
      ask AwaitDownload (sub_r v j Downloaded);;
      ask (SaveAs file_path) (sub_r v j Saved);;
      ask (Click (py "#closeDoc")) (sub_r v j CloseDoc);;
      subdocs_loop v county api_no (S j) rest
  end.

(** Lines 182-225: the body of the [try]. *)
Definition fetch (v : visit) (plat_link county api_no : pystr)
    : session (list pystr) unit :=
  ask (Goto plat_link 60000) (goto_r v);;
  ask (WaitVisible (py ".showActionMenu")) (action_menu_r v);;
  record_numbers ← ask (EvaluateAll (py ".showActionMenu")) (record_numbers_r v);
  subdocs_loop v county api_no 0 record_numbers.

Definition append (path : pystr) : session (list pystr) unit :=
  update (fun plat_file_paths => plat_file_paths ++ [path]).

(** Lines 161-229: the body of the loop over the rows. *)
Definition visit_record (v : visit) (row : row) : session (list pystr) unit :=
  let plat_link := row !! py "PlatLink" in
  let api_no := row !! py "API NO." in
  let county := default (py "UnknownCounty") (row !! py "County") in
  if negb (truthy plat_link) || negb (truthy api_no)
  then append []
  else
    let plat_link := default [] plat_link in
    let api_no := default [] api_no in
    let download_dir := download_dir_of county in
    ask (MakeDirs download_dir) (makedirs_r v);;
    let file_path := target_path county api_no in
    present ← ask (PathExists file_path) (Ok (exists_r v));
    if present : bool
    then append file_path
    else except (fetch v plat_link county api_no) (fun e => append []).

(** Lines 160-229: the loop over the rows; [i] counts them. *)
Fixpoint records_loop (env : retrieval_env) (i : nat) (df : list row)
    : session (list pystr) unit :=
  match df with
  | [] => mret tt
  | row :: rest =>
      visit_record (r_visits env i) row;; records_loop env (S i) rest
  end.

(** Line 233: [df[name] = values]. *)
Definition set_column (df : list row) (name : pystr) (values : list pystr)
    : pyresult (list row) :=
  if decide (length values = length df)
  then Ok (zip_with (fun row v => <[name := v]> row) df values)
  else Raise ValueError.

Definition retrieval_session (env : retrieval_env) (df : list row)
    : session (list pystr) (list row) :=
  ask PlaywrightStart (r_start env);;
  finally
    (ask (Launch false) (r_launch env);;
     ask NewContext (r_context env);;
     ask NewPage (r_page env);;
     records_loop env 0 df;;
     ask BrowserClose (r_close env))
    (ask PlaywrightStop (r_stop env));;
  plat_file_paths ← get;
  lift (set_column df (py "PlatFilePath") plat_file_paths).

(** The result comes with [plat_file_paths] and the log of the calls. *)
Definition download_plat_files (env : retrieval_env) (df : list row)
    : option (pyresult (list row) * (list pystr * list call)) :=
  retrieval_session env df ([], []).

(* ===================================================================== *)
(** ** Notions the properties are stated with *)
(* ===================================================================== *)

(** The direct rows of the body of the results table, for a page that has
    both. *)
Definition page_rows (soup : node) : option (list node) :=
  results_table ← find_class (py "table") (py "DataGrid") soup;
  table_body ← find (py "tbody") results_table;
  Some (find_all_children (py "tr") table_body).

(** The column names a header row gives. *)
Definition header_names (header_row : node) : list pystr :=
  List.map (fun th => strip (text th)) (find_all (py "th") header_row).

(** [headers] as lines 40-44 leave it. *)
Definition canonical_headers (header_row : node) : list pystr :=
  py "API NO." :: py "PlatLink" :: drop 1 (header_names header_row).

(** The options of the selection control of a cell. *)
Definition link_options (first : node) : list node :=
  match find (py "select") first with
  | Some links_select => find_all (py "option") links_select
  | None => []
  end.

Definition is_images (o : node) : bool :=
  contains (py "Images") (text o).

Section Options.

Variable json_loads : pystr -> pyresult pyval.

(** The option has no link to give: it has no value attribute, or the
    value is not valid JSON, or it is a JSON object without [url]. *)
Definition gives_no_url (o : node) : Prop :=
  match getitem o (py "value") with
  | Raise _ => True
  | Ok value =>
      match json_loads value with
      | Raise e => e = JSONDecodeError
      | Ok (VDict items) => py "url" ∉ items.*1
      | Ok _ => False
      end
  end.

(** The value of the option is either rejected by the decoder or a JSON
    object. *)
Definition object_or_rejected (o : node) : Prop :=
  match getitem o (py "value") with
  | Raise _ => True
  | Ok value =>
      match json_loads value with
      | Raise e => e = JSONDecodeError
      | Ok (VDict _) => True
      | Ok _ => False
      end
  end.

(** Following the words of the specification: the url of an Images
    option whose value parses as JSON. *)
Definition parsed_url (o : node) : option pyval :=
  if is_images o
  then
    match getitem o (py "value") with
    | Ok value =>
        match json_loads value with
        | Ok (VDict items) => Some (dict_get items (py "url") (VStr []))
        | _ => None
        end
    | Raise _ => None
    end
  else None.

(** Following the words of the specification: the url from the last
    Images option whose value parses, the empty string when there is
    none. *)
Definition last_parsed_url (options : list node) : pyval :=
  default (VStr []) (last (omap parsed_url options)).

End Options.

(** Every answer of a visit is a success, the target file is not there and
    the page shows the record numbers [numbers]. *)
Definition succeeds (v : visit) (numbers : list pystr) : Prop :=
  makedirs_r v = Ok tt ∧ exists_r v = false ∧ goto_r v = Ok tt
  ∧ action_menu_r v = Ok tt ∧ record_numbers_r v = Ok numbers
  ∧ ∀ j step, sub_r v j step = Ok tt.

(** The browser of the retrieval starts and stops without exception. *)
Definition browser_works (env : retrieval_env) : Prop :=
  r_start env = Ok tt ∧ r_launch env = Ok tt ∧ r_context env = Ok tt
  ∧ r_page env = Ok tt ∧ r_close env = Ok tt ∧ r_stop env = Ok tt.

(** The row has a link and an API number, none of them empty. *)
Definition has_link (row : row) (plat_link api_no : pystr) : Prop :=
  row !! py "PlatLink" = Some plat_link ∧ plat_link ≠ []
  ∧ row !! py "API NO." = Some api_no ∧ api_no ≠ [].

(** [row.get('County', 'UnknownCounty')] *)
Definition county_of (row : row) : pystr :=
  default (py "UnknownCounty") (row !! py "County").

(** The target file is not there and the navigation to the link raises
    [e]. *)
Definition navigation_fails (v : visit) (e : exn) : Prop :=
  makedirs_r v = Ok tt ∧ exists_r v = false ∧ goto_r v = Raise e.

(** The calls of one sub-document that downloads. *)
Definition subdoc_calls (county api_no record_num : pystr) : list call :=
  [ ScrollIntoView (trigger record_num); WaitVisible (trigger record_num);
    Click (trigger record_num); WaitVisible (py "#imageMenu");
    Click download_well_log; WaitVisible download_link; Click download_link;
    AwaitDownload; SaveAs (saved_path county api_no record_num);
    Click (py "#closeDoc") ].

(** The calls before the first sub-document. *)
Definition open_calls (plat_link : pystr) : list call :=
  [ Goto plat_link 60000; WaitVisible (py ".showActionMenu");
    EvaluateAll (py ".showActionMenu") ].

(** The outcome of [scrape_permits] once a session step has raised, from
    what the screenshot, the close of the browser and the stop of
    Playwright answer. *)
Definition after_failure (env : search_env) (all_permits_data : list permit)
    : pyresult (list permit) :=
  match s_stop env, s_close env, s_screenshot env with
  | Raise e, _, _ => Raise e
  | Ok _, Raise e, _ => Raise e
  | Ok _, Ok _, Raise e => Raise e
  | Ok _, Ok _, Ok _ => Ok all_permits_data
  end.

(* ===================================================================== *)
(** ** Sample pages, sites and records *)
(* ===================================================================== *)

Module Sample.

Definition el (name : string) (contents : list node) : node :=
  Tag (py name) [] [] contents.
Definition txt (s : string) : node := Text (py s).
Definition opt (label : string) (value : pystr) : node :=
  Tag (py "option") [] [(py "value", value)] [txt label].

(** The JSON text of an object with one member, [url]. *)
Definition url_json (u : string) : pystr :=
  py "{" ++ dq ++ py "url" ++ dq ++ py ": " ++ dq ++ py u ++ dq ++ py "}".

Definition page (rows : list node) : node :=
  el "html"
     [el "body" [Tag (py "table") [py "DataGrid"] [] [el "tbody" rows]]].

Definition blank : node := el "tr" [].
Definition header : node :=
  el "tr" [el "th" [txt "API"]; el "th" [txt " County "];
           el "th" [txt "Operator"]].

Definition first_cell (api : string) (options : list node) : node :=
  el "td" [el "a" [txt api]; el "select" options].

(** A row as the site writes it: one Images option with a link. *)
Definition plain_row : node :=
  el "tr" [first_cell " 42-003-1 " [opt "Images" (url_json "http://d/1")];
           el "td" [txt "ANDREWS"]; el "td" [txt "ACME OIL"]].

(** A row with a cell less than the header has. *)
Definition short_row : node :=
  el "tr" [first_cell "42-135-2" [opt "Images" (url_json "http://d/2")];
           el "td" [txt "ECTOR"]].

(** Two Images options: a link, then a value that is not JSON. *)
Definition two_images_cell : node :=
  first_cell "42-329-3"
    [opt "Images" (url_json "http://d/3"); opt "GIS" (py "gis");
     opt "More Images" (py "oops")].
Definition two_images_row : node :=
  el "tr" [two_images_cell; el "td" [txt "MIDLAND"];
           el "td" [txt "ACME OIL"]].

(** Three Images options: two links, then a value that is not JSON. *)
Definition three_images_cell : node :=
  first_cell "42-227-5"
    [opt "Images" (url_json "http://d/5a");
     opt "Images (scan)" (url_json "http://d/5b");
     opt "Images (old)" (py "oops")].
Definition three_images_row : node :=
  el "tr" [three_images_cell; el "td" [txt "HOWARD"];
           el "td" [txt "ACME OIL"]].

(** One Images option whose value is not JSON. *)
Definition bad_json_cell : node :=
  first_cell "42-317-4" [opt "Images" (py "{url: http://d/4}")].
Definition bad_json_row : node :=
  el "tr" [bad_json_cell; el "td" [txt "MARTIN"]; el "td" [txt "ACME OIL"]].

Definition ok_page : page_answers :=
  {| content_r := Ok (page [blank; header; plain_row]);
     count_r := Ok 1; next_click_r := Ok tt; settle_r := Ok tt |}.

Definition timeout : exn := Error (py "TimeoutError").
Definition closed : exn := Error (py "TargetClosedError").

Definition failing_page : page_answers :=
  {| content_r := Raise timeout;
     count_r := Ok 0; next_click_r := Ok tt; settle_r := Ok tt |}.

(** A site whose first result page loads and whose second one times
    out. *)
Definition site : search_env :=
  {| s_start := Ok tt; s_launch := Ok tt; s_new_page := Ok tt;
     s_goto := Ok tt; s_select := Ok tt; s_fill_from := Ok tt;
     s_fill_to := Ok tt; s_submit := Ok tt; s_results := Ok tt;
     s_pages := fun page_num =>
                  match page_num with 1 => ok_page | _ => failing_page end;
     s_screenshot := Ok tt; s_close := Ok tt; s_stop := Ok tt |}.

(** The same site with a browser that is gone when the screenshot is
    asked for. *)
Definition dead_site : search_env :=
  {| s_start := Ok tt; s_launch := Ok tt; s_new_page := Ok tt;
     s_goto := Ok tt; s_select := Ok tt; s_fill_from := Ok tt;
     s_fill_to := Ok tt; s_submit := Ok tt; s_results := Ok tt;
     s_pages := s_pages site;
     s_screenshot := Raise closed; s_close := Ok tt; s_stop := Ok tt |}.

(** A site with two result pages: two rows, then a table without data
    rows. *)
Definition two_page_site : search_env :=
  {| s_start := Ok tt; s_launch := Ok tt; s_new_page := Ok tt;
     s_goto := Ok tt; s_select := Ok tt; s_fill_from := Ok tt;
     s_fill_to := Ok tt; s_submit := Ok tt; s_results := Ok tt;
     s_pages := fun page_num =>
                  {| content_r :=
                       Ok (match page_num with
                           | 1 => page [blank; header; plain_row;
                                        three_images_row]
                           | _ => page [blank; header]
                           end);
                     count_r := Ok 1; next_click_r := Ok tt;
                     settle_r := Ok tt |};
     s_screenshot := Ok tt; s_close := Ok tt; s_stop := Ok tt |}.

Definition january : gmap pystr pystr :=
  list_to_map [(py "from", py "01/01/2024"); (py "to", py "01/31/2024")].

Definition andrews : config :=
  {| counties := [py "ANDREWS"]; date_range := january |}.
Definition nowhere : config :=
  {| counties := [py "NOT_A_COUNTY"]; date_range := january |}.

(** A document viewer that shows the record numbers [numbers] and lets
    every download through. *)
Definition viewer (numbers : list pystr) : visit :=
  {| makedirs_r := Ok tt; exists_r := false; goto_r := Ok tt;
     action_menu_r := Ok tt; record_numbers_r := Ok numbers;
     sub_r := fun _ _ => Ok tt |}.

(** A visit that finds the target file in place. *)
Definition on_disk : visit :=
  {| makedirs_r := Ok tt; exists_r := true; goto_r := Ok tt;
     action_menu_r := Ok tt; record_numbers_r := Ok [];
     sub_r := fun _ _ => Ok tt |}.

(** A visit whose navigation times out. *)
Definition unreachable : visit :=
  {| makedirs_r := Ok tt; exists_r := false; goto_r := Raise timeout;
     action_menu_r := Ok tt; record_numbers_r := Ok [];
     sub_r := fun _ _ => Ok tt |}.

Definition browser (visits : nat -> visit) : retrieval_env :=
  {| r_start := Ok tt; r_launch := Ok tt; r_context := Ok tt;
     r_page := Ok tt; r_visits := visits; r_close := Ok tt;
     r_stop := Ok tt |}.

Definition record (api link county : string) : row :=
  list_to_map [(py "API NO.", py api); (py "PlatLink", py link);
               (py "County", py county)].

Definition andrews_1 : row := record "42-003-1" "http://d/1" "ANDREWS".
Definition ector_2 : row := record "42-135-2" "http://d/2" "ECTOR".

End Sample.

(* ===================================================================== *)
(** ** More notions for the parser *)
(* ===================================================================== *)

(** Lines 55-56: the API number read off the first cell. *)
Definition api_no_of (first : node) : pystr :=
  match find (py "a") first with
  | Some api_no_tag => strip (text api_no_tag)
  | None => []
  end.

(** The row has cells: line 50 lets it through. *)
Definition has_cells (row : node) : bool :=
  match find_all (py "td") row with [] => false | _ :: _ => true end.

(** What lines 70-72 leave in [permit_data] when no index is out of range:
    each name is given the text of the cell at its position. *)
Definition filled (names : list pystr) (cells : list node)
    (permit_data : permit) : permit :=
  foldl (fun (data : permit) (entry : pystr * node) =>
           <[entry.1 := VStr (cell_text entry.2)]> data)
        permit_data (zip names cells).

(** A row the loop takes without exception: it has no cell, or it has a
    cell for every header cell and the values of its Images options are
    rejected by the decoder or JSON objects. *)
Definition well_formed (json_loads : pystr -> pyresult pyval)
    (header_row row : node) : Prop :=
  match find_all (py "td") row with
  | [] => True
  | first :: rest =>
      length (drop 1 (header_names header_row)) ≤ length rest
      ∧ Forall (fun o => is_images o = true
                         -> object_or_rejected json_loads o)
               (link_options first)
  end.

(** No character of the word is whitespace. *)
Definition is_word (w : pystr) : Prop :=
  w ≠ [] ∧ Forall (fun c => isspace c = false) w.

(* ===================================================================== *)
(** ** More notions for the search session driver *)
(* ===================================================================== *)

(** The browser opens, and the form goes through up to the first result
    page. *)
Definition search_opens (env : search_env) : Prop :=
  s_start env = Ok tt ∧ s_launch env = Ok tt ∧ s_new_page env = Ok tt
  ∧ s_goto env = Ok tt ∧ s_select env = Ok tt ∧ s_fill_from env = Ok tt
  ∧ s_fill_to env = Ok tt ∧ s_submit env = Ok tt ∧ s_results env = Ok tt.

(** The screenshot, the close of the browser and the stop of Playwright
    go through. *)
Definition search_closes (env : search_env) : Prop :=
  s_screenshot env = Ok tt ∧ s_close env = Ok tt ∧ s_stop env = Ok tt.

(** The configuration has both dates. *)
Definition has_dates (config : config) (from to : pystr) : Prop :=
  date_range config !! py "from" = Some from
  ∧ date_range config !! py "to" = Some to.

(** Result page [page_num] shows the records [records], at least one, and
    a next link that leads on. *)
Definition full_page (json_loads : pystr -> pyresult pyval)
    (env : search_env) (page_num : nat) (records : list permit) : Prop :=
  ∃ soup n,
    content_r (s_pages env page_num) = Ok soup
    ∧ parse_results_table json_loads soup = Ok records
    ∧ records ≠ []
    ∧ count_r (s_pages env page_num) = Ok n ∧ 0 < n
    ∧ next_click_r (s_pages env page_num) = Ok tt
    ∧ settle_r (s_pages env page_num) = Ok tt.

(** Result page [page_num] ends the walk with the records [records]: it
    shows none, or it shows some and no next link. *)
Definition last_page (json_loads : pystr -> pyresult pyval)
    (env : search_env) (page_num : nat) (records : list permit) : Prop :=
  ∃ soup,
    content_r (s_pages env page_num) = Ok soup
    ∧ parse_results_table json_loads soup = Ok records
    ∧ (records = [] ∨ count_r (s_pages env page_num) = Ok 0).

(** The parser raises [e] on result page [page_num]. *)
Definition broken_page (json_loads : pystr -> pyresult pyval)
    (env : search_env) (page_num : nat) (e : exn) : Prop :=
  ∃ soup,
    content_r (s_pages env page_num) = Ok soup
    ∧ parse_results_table json_loads soup = Raise e.

(** The calls up to the first result page. *)
Definition search_calls (config : config) (from to : pystr) : list call :=
  [ PlaywrightStart; Launch true; NewPage; Goto RRC_URL 60000;
    SelectOption county_select (selected_county_codes config);
    Fill from_input from; Fill to_input to; Click submit_button;
    WaitForSelector (py "table.DataGrid") ].

(** The calls of a result page that leads to the next. *)
Definition page_calls : list call :=
  [ Content; Count next_link; Click next_link;
    WaitForLoadState (py "networkidle") ].

Definition is_screenshot (c : call) : bool :=
  match c with Screenshot _ => true | _ => false end.

(* ===================================================================== *)
(** ** More notions for the plat retrieval orchestrator *)
(* ===================================================================== *)

Definition is_save (c : call) : bool :=
  match c with SaveAs _ => true | _ => false end.

(** The place of a step among the steps of a sub-document. *)
Definition step_index (step : sub_step) : nat :=
  match step with
  | Scroll => 0 | TriggerVisible => 1 | TriggerClick => 2 | MenuVisible => 3
  | DownloadWellLog => 4 | LinkVisible => 5 | LinkClick => 6
  | Downloaded => 7 | Saved => 8 | CloseDoc => 9
  end.

(** The rows of the frame have the same columns: no cell is missing in
    one row only (a cell pandas would hold as NaN). *)
Definition uniform (df : list row) : Prop :=
  ∀ r1 r2 : gmap pystr pystr, r1 ∈ df -> r2 ∈ df -> dom r1 = dom r2.

(** The row has a link and an API number: lines 165-168 let it through. *)
Definition linked (row : row) : bool :=
  truthy (row !! py "PlatLink") && truthy (row !! py "API NO.").

(** The calls to the filesystem a visit makes before it turns to the
    browser (lines 171-176). *)
Definition fs_calls_of (row : row) : list call :=
  if linked row
  then [ MakeDirs (download_dir_of (county_of row));
         PathExists (target_path (county_of row)
                                 (default [] (row !! py "API NO."))) ]
  else [].

Definition is_fs_call (c : call) : bool := negb (is_session_call c).

(** An outcome the orchestrator may record for a row: the empty path, or
    the path it tests for the row. *)
Definition outcome_of (row : row) (path : pystr) : Prop :=
  path = []
  ∨ ∃ api_no, row !! py "API NO." = Some api_no
              ∧ path = target_path (county_of row) api_no.

(* ===================================================================== *)
(** ** The job runner and the file endpoints ([src/main.py]) *)
(* ===================================================================== *)

(** What an endpoint gives: its value, or the [HTTPException] it raises. *)
Inductive response (A : Type) :=
| Reply (a : A)
| HTTPException (status_code : nat) (detail : pystr).
Arguments Reply {A} a.
Arguments HTTPException {A} status_code detail.

(** A value of a job of the registry [jobs]: a string, the configuration,
    or [str(e)] for the exception [e]. *)
Inductive jobval :=
| JStr (s : pystr)
| JConfig (c : config)
| JError (e : exn).

(** [jobs[job_id][key] = v] *)
Definition set_field (job_id key : pystr) (v : jobval)
    (jobs : gmap pystr (gmap pystr jobval))
    : pyresult (gmap pystr (gmap pystr jobval)) :=
  match jobs !! job_id with
  | Some fields => Ok (<[job_id := <[key := v]> fields]> jobs)
  | None => Raise KeyError
  end.

(** Lines 79-87 of [main.py]. An empty dict is falsy. *)
Definition get_job_status (jobs : gmap pystr (gmap pystr jobval))
    (job_id : pystr) : response (gmap pystr jobval) :=
  match jobs !! job_id with
  | Some fields =>
      if decide (fields = ∅) then HTTPException 404 (py "Job not found")
      else Reply fields
  | None => HTTPException 404 (py "Job not found")
  end.

(** Line 52. *)
Definition csv_path_of (job_id : pystr) : pystr :=
  path_join (py "data") (job_id ++ py "_permits.csv").

(** Lines 61-64: the [except] of the task. *)
Definition job_failed (job_id : pystr) (e : exn)
    (jobs : gmap pystr (gmap pystr jobval))
    : pyresult (gmap pystr (gmap pystr jobval)) :=
  jobs ← set_field job_id (py "status") (JStr (py "failed")) jobs;
  set_field job_id (py "error") (JError e) jobs.

(** Lines 43-64 of [main.py]. [scraped] is what awaiting [scrape_permits]
    gives, as a frame ([None] while it runs); [to_csv_r] is what
    [df.to_csv] answers. The result is the registry the task leaves, or
    the exception that leaves the task. The [httpx] client the task opens
    around the retrieval is not used by it. *)
Definition scrape_and_save_task (scraped : option (pyresult (list row)))
    (env : retrieval_env) (to_csv_r : pyresult unit) (job_id : pystr)
    (jobs : gmap pystr (gmap pystr jobval))
    : option (pyresult (gmap pystr (gmap pystr jobval))) :=
  match set_field job_id (py "status") (JStr (py "running")) jobs with
  | Raise e => Some (Raise e)
  | Ok jobs =>
      match scraped with
      | None => None
      | Some (Raise e) => Some (job_failed job_id e jobs)
      | Some (Ok []) =>
          Some (set_field job_id (py "status")
                          (JStr (py "completed_with_no_data")) jobs)
      | Some (Ok df) =>
          match download_plat_files env df with
          | None => None
          | Some (Raise e, _) => Some (job_failed job_id e jobs)
          | Some (Ok df, _) =>
              match to_csv_r with
              | Raise e => Some (job_failed job_id e jobs)
              | Ok _ =>
                  Some (jobs ← set_field job_id (py "status")
                                         (JStr (py "completed")) jobs;
                        set_field job_id (py "result_file")
                                  (JStr (csv_path_of job_id)) jobs)
              end
          end
      end
  end.

(** [s.replace(old, new, 1)] *)
Fixpoint replace_first (old new s : pystr) : pystr :=
  if startswith old s then new ++ drop (length old) s
  else match s with
       | [] => []
       | c :: r => c :: replace_first old new r
       end.

(** What [list_data_files] gives. *)
Inductive listing :=
| Message (text : pystr)
| Files (paths : list pystr).

(** Lines 90-105 of [main.py]. [path_exists] is [os.path.exists] and
    [walk] what [os.walk('data')] yields: a directory, its
    sub-directories and its files, for each directory. *)
Definition list_data_files (path_exists : pystr -> bool)
    (walk : list (pystr * list pystr * list pystr)) : listing :=
  if negb (path_exists (py "data"))
  then Message (py "Data directory not found.")
  else
    Files (flat_map (fun entry : pystr * list pystr * list pystr =>
                       List.map (fun name =>
                                   replace_first (py "data/") []
                                     (path_join entry.1.1 name))
                                entry.2)
                    walk).

(** Lines 108-116 of [main.py]: the path the [FileResponse] is made of. *)
Definition download_data_file (path_exists : pystr -> bool)
    (file_path : pystr) : response pystr :=
  let full_path := path_join (py "data") file_path in
  if negb (path_exists full_path)
  then HTTPException 404 (py "File not found")
  else Reply full_path.

(** A directory as [os.walk('data')] names it: the top, or a path below
    it. *)
Definition walked (root : pystr) : Prop :=
  root = py "data"
  ∨ ∃ below, root = py "data/" ++ below ∧ below ≠ []
             ∧ startswith (py "/") below = false.

(** The final statuses of a job. *)
Definition final_statuses : list pystr :=
  [py "completed"; py "completed_with_no_data"; py "failed"].

(* ===================================================================== *)
(** ** More samples *)
(* ===================================================================== *)

Module More.

Import Sample.

(** An Images option whose value is JSON, but an array. *)
Definition array_option : node := opt "Images" (py "[1, 2]").
Definition array_cell : node := first_cell "42-173-6" [array_option].
Definition array_row : node :=
  el "tr" [array_cell; el "td" [txt "GLASSCOCK"]; el "td" [txt "ACME OIL"]].

Definition county_cell : node := el "td" [txt " MIDLAND  COUNTY "].

(** A row whose second cell has its words far apart. *)
Definition spaced_row : node :=
  el "tr" [two_images_cell; county_cell; el "td" [txt "ACME OIL"]].

(** A site with result pages without end: every page shows a row and a
    next link; page 3 has a row that is too short. *)
Definition endless_site : search_env :=
  {| s_start := Ok tt; s_launch := Ok tt; s_new_page := Ok tt;
     s_goto := Ok tt; s_select := Ok tt; s_fill_from := Ok tt;
     s_fill_to := Ok tt; s_submit := Ok tt; s_results := Ok tt;
     s_pages := fun page_num =>
                  {| content_r :=
                       Ok (match page_num with
                           | 3 => page [blank; header; plain_row; short_row]
                           | _ => page [blank; header; plain_row]
                           end);
                     count_r := Ok 1; next_click_r := Ok tt;
                     settle_r := Ok tt |};
     s_screenshot := Ok tt; s_close := Ok tt; s_stop := Ok tt |}.

(** The record of [plain_row]. *)
Definition plain_record : permit :=
  list_to_map [(py "API NO.", VStr (py "42-003-1"));
               (py "PlatLink", VStr (py "http://d/1"));
               (py "County", VStr (py "ANDREWS"));
               (py "Operator", VStr (py "ACME OIL"))].

(** The record of [three_images_row]. *)
Definition howard_record : permit :=
  list_to_map [(py "API NO.", VStr (py "42-227-5"));
               (py "PlatLink", VStr (py "http://d/5b"));
               (py "County", VStr (py "HOWARD"));
               (py "Operator", VStr (py "ACME OIL"))].

(** A configuration without the first date. *)
Definition undated : config :=
  {| counties := [py "ANDREWS"];
     date_range := list_to_map [(py "to", py "01/31/2024")] |}.

(** A browser that launches and cannot open a page. *)
Definition pageless_site : search_env :=
  {| s_start := Ok tt; s_launch := Ok tt; s_new_page := Raise closed;
     s_goto := Ok tt; s_select := Ok tt; s_fill_from := Ok tt;
     s_fill_to := Ok tt; s_submit := Ok tt; s_results := Ok tt;
     s_pages := s_pages site;
     s_screenshot := Ok tt; s_close := Ok tt; s_stop := Ok tt |}.

(** Two Images options: a link, then a value that is JSON, but an
    array. *)
Definition url_then_array_cell : node :=
  first_cell "42-383-8"
    [opt "Images" (url_json "http://d/8"); opt "Images (old)" (py "[1, 2]")].
Definition url_then_array_row : node :=
  el "tr" [url_then_array_cell; el "td" [txt "REAGAN"];
           el "td" [txt "ACME OIL"]].

(** A header row whose second column is named PlatLink. *)
Definition link_header : node :=
  el "tr" [el "th" [txt "API"]; el "th" [txt "PlatLink"];
           el "th" [txt "Operator"]].

(** A viewer with two sub-documents, the second of which cannot be
    saved. *)
Definition half_viewer : visit :=
  {| makedirs_r := Ok tt; exists_r := false; goto_r := Ok tt;
     action_menu_r := Ok tt; record_numbers_r := Ok [py "1"; py "2"];
     sub_r := fun j step =>
                match j, step with
                | 1, Saved => Raise (Error (py "OSError"))
                | _, _ => Ok tt
                end |}.

(** A visit for which the directory cannot be made. *)
Definition read_only : visit :=
  {| makedirs_r := Raise (Error (py "PermissionError")); exists_r := false;
     goto_r := Ok tt; action_menu_r := Ok tt; record_numbers_r := Ok [];
     sub_r := fun _ _ => Ok tt |}.

(** The first visit cannot reach the viewer, the later ones find their
    file in place. *)
Definition mixed_browser : retrieval_env :=
  browser (fun i => match i with 0 => unreachable | _ => on_disk end).

(** A record the parser found no link for. *)
Definition linkless : row := record "42-461-7" "" "UPTON".

(** A registry with one job, as [start_scraping] leaves it. *)
Definition pending_fields : gmap pystr jobval :=
  list_to_map [(py "status", JStr (py "pending"));
               (py "config", JConfig andrews)].
Definition pending : gmap pystr (gmap pystr jobval) :=
  {[ py "job-1" := pending_fields ]}.

(** A data directory with one frame and one plat file. *)
Definition data_walk : list (pystr * list pystr * list pystr) :=
  [ (py "data", [py "plat_files"], [py "job-1_permits.csv"]);
    (py "data/plat_files", [py "ANDREWS"], []);
    (py "data/plat_files/ANDREWS", [], [py "42-003-1_1.tif"]) ].

Definition on_data_disk (path : pystr) : bool :=
  bool_decide (path ∈ [py "data"; py "data/job-1_permits.csv";
                       py "data/plat_files/ANDREWS/42-003-1_1.tif";
                       py "/etc/passwd"]).

End More.

(* ===================================================================== *)
(** ** The parser: auxiliary facts *)
(* ===================================================================== *)

Lemma bind_ok {A B} (a : A) (f : A -> pyresult B) : (Ok a ≫= f) = f a.
Proof. reflexivity. Qed.

Lemma drop_canonical header_row :
  drop 2 (canonical_headers header_row) = drop 1 (header_names header_row).
Proof. reflexivity. Qed.

Section ParserFacts.

Variable json_loads : pystr -> pyresult pyval.

Lemma parse_results_table_rows soup blank_row header_row data_rows :
  page_rows soup = Some (blank_row :: header_row :: data_rows) ->
  data_rows ≠ [] ->
  header_names header_row ≠ [] ->
  parse_results_table json_loads soup
  = rows_loop json_loads (canonical_headers header_row) data_rows [].
Proof.
  unfold page_rows, parse_results_table, canonical_headers, header_names.
  intros Hrows Hdata Hnames.
  destruct (find_class _ _ soup) as [results_table|]; [|discriminate].
  simpl in Hrows.
  destruct (find _ results_table) as [table_body|]; [|discriminate].
  simpl in Hrows. injection Hrows as ->.
  destruct data_rows as [|row rest]; [congruence|].
  destruct (decide _) as [Hlt|_]; [simpl in Hlt; lia|].
  simpl.
  destruct (List.map _ (find_all _ header_row)) as [|h hs]; [congruence|].
  reflexivity.
Qed.

Lemma fill_columns_ok names : ∀ cols i (permit_data : permit),
  i + length names ≤ length cols ->
  ∃ filled : permit,
    fill_columns cols i names permit_data = Ok filled
    ∧ ∀ k, k ∉ names -> filled !! k = permit_data !! k.
Proof.
  induction names as [|header rest IH]; intros cols i permit_data Hlen.
  - exists permit_data. split; [reflexivity|auto].
  - simpl in *. unfold index.
    destruct (lookup_lt_is_Some_2 cols i) as [c Hc]; [lia|].
    rewrite Hc. simpl.
    destruct (IH cols (S i) (<[header:=VStr (cell_text c)]> permit_data))
      as (filled & Hfill & Hkeep); [lia|].
    exists filled. split; [exact Hfill|].
    intros k Hk. rewrite Hkeep.
    + apply lookup_insert_ne. intros ->. apply Hk. left.
    + intros Hin. apply Hk. right. exact Hin.
Qed.

Lemma fill_columns_short names : ∀ cols i (permit_data : permit),
  i ≤ length cols ->
  length cols < i + length names ->
  fill_columns cols i names permit_data = Raise IndexError.
Proof.
  induction names as [|header rest IH]; intros cols i permit_data Hi Hlen.
  - simpl in Hlen. lia.
  - simpl in *. unfold index.
    destruct (cols !! i) as [c|] eqn:Hc; simpl.
    + apply lookup_lt_Some in Hc. apply IH; lia.
    + reflexivity.
Qed.

Lemma parse_row_ok header_row row first rest plat_link :
  find_all (py "td") row = first :: rest ->
  length (drop 1 (header_names header_row)) ≤ length rest ->
  py "PlatLink" ∉ drop 1 (header_names header_row) ->
  plat_link_of json_loads first = Ok plat_link ->
  ∃ permit_data : permit,
    parse_row json_loads (canonical_headers header_row) row
    = Ok (Some permit_data)
    ∧ permit_data !! py "PlatLink" = Some plat_link.
Proof.
  intros Hcols Hlen Hfresh Hlink. unfold parse_row.
  rewrite Hcols, Hlink, bind_ok, drop_canonical.
  match goal with
  | |- context [fill_columns ?c ?i ?n ?d] =>
      destruct (fill_columns_ok n c i d) as (filled & Hfill & Hkeep)
  end.
  { cbn [length]. lia. }
  rewrite Hfill, bind_ok.
  exists filled. split; [reflexivity|].
  rewrite Hkeep by exact Hfresh. apply lookup_insert_eq.
Qed.

Lemma parse_row_short header_row row first rest plat_link :
  find_all (py "td") row = first :: rest ->
  length rest < length (drop 1 (header_names header_row)) ->
  plat_link_of json_loads first = Ok plat_link ->
  parse_row json_loads (canonical_headers header_row) row
  = Raise IndexError.
Proof.
  intros Hcols Hlen Hlink. unfold parse_row.
  rewrite Hcols, Hlink, bind_ok, drop_canonical.
  rewrite fill_columns_short; [reflexivity|cbn [length]; lia..].
Qed.

Lemma rows_loop_acc headers rows : ∀ done,
  rows_loop json_loads headers rows done
  = (later ← rows_loop json_loads headers rows []; Ok (done ++ later)).
Proof.
  induction rows as [|r rows IH]; intros done; simpl.
  - by rewrite app_nil_r.
  - destruct (parse_row json_loads headers r) as [[p|]|e]; simpl;
      [|apply IH|reflexivity].
    rewrite (IH (done ++ [p])), (IH [p]).
    destruct (rows_loop json_loads headers rows []) as [later|e]; simpl;
      [|reflexivity].
    by rewrite <- app_assoc.
Qed.

Lemma rows_loop_all_ok headers rows :
  Forall (fun r => ∃ o, parse_row json_loads headers r = Ok o) rows ->
  ∃ permits, rows_loop json_loads headers rows [] = Ok permits.
Proof.
  induction 1 as [|r rows [o Ho] _ [permits IH]]; simpl.
  - by exists [].
  - rewrite Ho. simpl. rewrite rows_loop_acc, IH. simpl. eauto.
Qed.

(** The records of the rows before a row come first, the record of the
    row follows them. *)
Lemma rows_loop_split headers before row after permit_data :
  Forall (fun r => ∃ o, parse_row json_loads headers r = Ok o)
         (before ++ after) ->
  parse_row json_loads headers row = Ok (Some permit_data) ->
  ∃ earlier later,
    rows_loop json_loads headers (before ++ row :: after) []
    = Ok (earlier ++ permit_data :: later)
    ∧ rows_loop json_loads headers before [] = Ok earlier.
Proof.
  intros Hall Hrow. apply Forall_app in Hall as [Hbefore Hafter].
  destruct (rows_loop_all_ok headers after Hafter) as [later Hlater].
  induction Hbefore as [|r before [o Ho] _ IH]; simpl.
  - rewrite Hrow. simpl. rewrite rows_loop_acc, Hlater. simpl.
    by exists [], later.
  - destruct IH as (earlier & later' & Hrun & Hearlier).
    rewrite Ho. simpl.
    rewrite rows_loop_acc, Hrun. simpl.
    rewrite (rows_loop_acc headers before), Hearlier. simpl.
    exists (match o with Some p => [p] | None => [] end ++ earlier), later'.
    by rewrite <- app_assoc.
Qed.

Lemma getitem_raises (o : node) key e :
  getitem o key = Raise e -> e = KeyError.
Proof.
  destruct o as [|name classes attrs contents]; simpl; [congruence|].
  destruct (assoc key attrs); congruence.
Qed.

Lemma dict_get_missing items key default :
  key ∉ items.*1 -> dict_get items key default = default.
Proof.
  induction items as [|[k v] items IH]; simpl; [done|].
  intros Hnot. case_bool_decide as Hk.
  - exfalso. apply Hnot. subst. left.
  - apply IH. intros Hin. apply Hnot. by right.
Qed.

Lemma plat_link_of_options first :
  plat_link_of json_loads first
  = scan_options json_loads (link_options first) (VStr []).
Proof. unfold plat_link_of, link_options. by destruct (find _ first). Qed.

(** Options that have no link to give leave the link empty. *)
Lemma scan_options_no_url options :
  Forall (fun o => is_images o = true -> gives_no_url json_loads o)
         options ->
  scan_options json_loads options (VStr []) = Ok (VStr []).
Proof.
  induction 1 as [|o options Ho _ IH]; [reflexivity|]. simpl.
  unfold is_images, gives_no_url in Ho.
  destruct (contains (py "Images") (text o)); [|exact IH].
  specialize (Ho eq_refl).
  destruct (getitem o (py "value")) as [value|e] eqn:Hvalue.
  - rewrite bind_ok.
    destruct (json_loads value) as [value_json|e] eqn:Hloads.
    + rewrite bind_ok.
      destruct value_json as [| | | | | |items]; try contradiction.
      simpl. by rewrite dict_get_missing.
    + subst e. exact IH.
  - apply getitem_raises in Hvalue as ->. exact IH.
Qed.

Lemma last_parsed_cons (u : pyval) (urls : list pyval) plat_link :
  default plat_link (last (u :: urls)) = default u (last urls).
Proof. rewrite last_cons. by destruct (last urls). Qed.

(** The scan ends with the url of the last Images option whose value
    parses. *)
Lemma scan_options_last options : ∀ plat_link,
  Forall (fun o => is_images o = true -> object_or_rejected json_loads o)
         options ->
  scan_options json_loads options plat_link
  = Ok (default plat_link (last (omap (parsed_url json_loads) options))).
Proof.
  induction options as [|o options IH]; intros plat_link Hall;
    [reflexivity|].
  inversion Hall as [|? ? Ho Hrest]; subst.
  cbn [scan_options omap list_omap]. unfold parsed_url at 1.
  unfold is_images, object_or_rejected in *.
  destruct (contains (py "Images") (text o)); [|by apply IH].
  specialize (Ho eq_refl).
  destruct (getitem o (py "value")) as [value|e] eqn:Hvalue.
  - rewrite bind_ok.
    destruct (json_loads value) as [value_json|e] eqn:Hloads.
    + rewrite bind_ok.
      destruct value_json as [| | | | | |items]; try contradiction.
      simpl. rewrite IH by exact Hrest. by rewrite last_parsed_cons.
    + subst e. simpl. by apply IH.
  - apply getitem_raises in Hvalue as ->. simpl. by apply IH.
Qed.

(** A row with enough cells gives one record, placed after the records
    of the rows before it; its link is what the scan of the options
    left. *)
Lemma parse_page_row soup blank_row header_row before row after first rest
    plat_link :
  page_rows soup = Some (blank_row :: header_row :: before ++ row :: after) ->
  header_names header_row ≠ [] ->
  find_all (py "td") row = first :: rest ->
  length (drop 1 (header_names header_row)) ≤ length rest ->
  py "PlatLink" ∉ drop 1 (header_names header_row) ->
  Forall (fun r => ∃ o, parse_row json_loads
                          (canonical_headers header_row) r = Ok o)
         (before ++ after) ->
  scan_options json_loads (link_options first) (VStr []) = Ok plat_link ->
  ∃ earlier (permit_data : permit) later,
    parse_results_table json_loads soup
    = Ok (earlier ++ permit_data :: later)
    ∧ rows_loop json_loads (canonical_headers header_row) before []
      = Ok earlier
    ∧ permit_data !! py "PlatLink" = Some plat_link.
Proof.
  intros Hrows Hnames Hcols Hlen Hfresh Hothers Hscan.
  rewrite <- plat_link_of_options in Hscan.
  destruct (parse_row_ok header_row row first rest plat_link
              Hcols Hlen Hfresh Hscan) as (permit_data & Hrow & Hlink).
  destruct (rows_loop_split _ before row after permit_data Hothers Hrow)
    as (earlier & later & Hrun & Hbefore).
  exists earlier, permit_data, later.
  rewrite (parse_results_table_rows soup _ _ _ Hrows); [done| |done].
  by destruct before.
Qed.

End ParserFacts.

(* ===================================================================== *)
(** ** The parser: properties *)
(* ===================================================================== *)

(** C4. A page whose results table is present, with a body that has fewer
    than 3 direct row children, gives the empty sequence of records and no
    exception. *)
Theorem few_rows_give_no_records json_loads soup results_table table_body :
  find_class (py "table") (py "DataGrid") soup = Some results_table ->
  find (py "tbody") results_table = Some table_body ->
  length (find_all_children (py "tr") table_body) < 3 ->
  parse_results_table json_loads soup = Ok [].
Proof.
  intros Htable Hbody Hfew. unfold parse_results_table.
  rewrite Htable, Hbody. by destruct (decide _).
Qed.

Lemma few_rows_give_no_records_witness :
  parse_results_table Json.loads (Sample.page [Sample.blank; Sample.header])
  = Ok [].
Proof.
  eapply few_rows_give_no_records; [reflexivity|reflexivity|].
  vm_compute. lia.
Defined.

(** C2 (the code departs from it). A data row with fewer cells than the
    header row has header cells makes the parser raise [IndexError]: the
    page does not degrade to a partial sequence of records. *)
Theorem short_row_raises json_loads soup blank_row header_row row after
    first rest plat_link :
  page_rows soup = Some (blank_row :: header_row :: row :: after) ->
  find_all (py "td") row = first :: rest ->
  length rest < length (drop 1 (header_names header_row)) ->
  plat_link_of json_loads first = Ok plat_link ->
  parse_results_table json_loads soup = Raise IndexError.
Proof.
  intros Hrows Hcols Hshort Hlink.
  rewrite (parse_results_table_rows json_loads soup _ _ _ Hrows); [|done|].
  - simpl. by rewrite (parse_row_short json_loads _ _ _ _ _ Hcols Hshort Hlink).
  - intros Hnone. rewrite Hnone in Hshort. simpl in Hshort. lia.
Qed.

Lemma short_row_raises_witness :
  parse_results_table Json.loads
    (Sample.page [Sample.blank; Sample.header; Sample.short_row])
  = Raise IndexError.
Proof.
  eapply short_row_raises; [reflexivity|reflexivity|vm_compute; lia|].
  vm_compute. reflexivity.
Defined.

(** A header row without header cells makes the parser raise as well. *)
Lemma empty_header_raises :
  parse_results_table Json.loads
    (Sample.page [Sample.blank; Sample.blank; Sample.plain_row])
  = Raise IndexError.
Proof. vm_compute. reflexivity. Qed.

(** C5 (as stated, it fails). The first cell of the row has an Images
    option whose value is not valid JSON, and the record of the row has a
    link that is not empty: an earlier Images option gave it. *)
Lemma undecodable_option_beside_a_link :
  (∃ o, o ∈ link_options Sample.two_images_cell
        ∧ is_images o = true
        ∧ (∃ value, getitem o (py "value") = Ok value
                    ∧ Json.loads value = Raise JSONDecodeError))
  ∧ ∃ permit_data : permit,
      parse_results_table Json.loads
        (Sample.page [Sample.blank; Sample.header; Sample.two_images_row])
      = Ok [permit_data]
      ∧ permit_data !! py "PlatLink" = Some (VStr (py "http://d/3"))
      ∧ permit_data !! py "PlatLink" ≠ Some (VStr []).
Proof.
  split.
  - exists (Sample.opt "More Images" (py "oops")). split; [|split].
    + vm_compute. do 2 right. left.
    + reflexivity.
    + exists (py "oops"). split; vm_compute; reflexivity.
  - eexists. split; [vm_compute; reflexivity|]. split.
    + vm_compute. reflexivity.
    + vm_compute. discriminate.
Qed.

(** C5 (amended). Take a data row with at least as many cells as the
    header row has header cells, under a header row that has at least one
    header cell and names no column PlatLink after the first, the other
    data rows being parsed without exception. If every option of the
    selection control of its first cell whose text contains Images has no
    link to give (no value attribute, a value the decoder rejects as
    invalid JSON, or a JSON object without [url]), the parser does not
    raise and returns a record for that row, after the records of the rows
    before it, with an empty link. *)
Theorem undecodable_link_is_empty json_loads soup blank_row header_row before
    row after first rest :
  page_rows soup = Some (blank_row :: header_row :: before ++ row :: after) ->
  header_names header_row ≠ [] ->
  find_all (py "td") row = first :: rest ->
  length (drop 1 (header_names header_row)) ≤ length rest ->
  py "PlatLink" ∉ drop 1 (header_names header_row) ->
  Forall (fun r => ∃ o, parse_row json_loads
                          (canonical_headers header_row) r = Ok o)
         (before ++ after) ->
  Forall (fun o => is_images o = true -> gives_no_url json_loads o)
         (link_options first) ->
  ∃ earlier (permit_data : permit) later,
    parse_results_table json_loads soup = Ok (earlier ++ permit_data :: later)
    ∧ rows_loop json_loads (canonical_headers header_row) before []
      = Ok earlier
    ∧ permit_data !! py "PlatLink" = Some (VStr []).
Proof.
  intros Hrows Hnames Hcols Hlen Hfresh Hothers Hoptions.
  eapply parse_page_row; eauto using scan_options_no_url.
Qed.

Lemma undecodable_link_is_empty_witness :
  ∃ earlier (permit_data : permit) later,
    parse_results_table Json.loads
      (Sample.page [Sample.blank; Sample.header; Sample.plain_row;
                    Sample.bad_json_row])
    = Ok (earlier ++ permit_data :: later)
    ∧ rows_loop Json.loads (canonical_headers Sample.header)
                [Sample.plain_row] [] = Ok earlier
    ∧ permit_data !! py "PlatLink" = Some (VStr []).
Proof.
  eapply (undecodable_link_is_empty Json.loads _ Sample.blank Sample.header
            [Sample.plain_row] Sample.bad_json_row [] Sample.bad_json_cell).
  - reflexivity.
  - vm_compute. discriminate.
  - reflexivity.
  - vm_compute. lia.
  - apply (bool_decide_unpack _). vm_compute. exact I.
  - repeat constructor. eexists. vm_compute. reflexivity.
  - constructor; [intros _; vm_compute; reflexivity|constructor].
Defined.

(** C10 (as stated, it fails). The last Images option of the first cell
    has a value that parses as JSON, an array, and the parser raises
    [AttributeError] at line 65: the row has no record, and no link.
    And under a header that names its second column PlatLink the link of
    the record is the text of the second cell, not the url of the last
    Images option whose value parses. *)
Lemma parsed_value_is_not_always_the_link :
  (∃ o value,
     last (List.filter is_images (link_options More.url_then_array_cell))
     = Some o
     ∧ getitem o (py "value") = Ok value
     ∧ Json.loads value = Ok (VList [VInt 1; VInt 2])
     ∧ parse_results_table Json.loads
         (Sample.page [Sample.blank; Sample.header; More.url_then_array_row])
       = Raise AttributeError)
  ∧ ∃ permit_data : permit,
      parse_results_table Json.loads
        (Sample.page [Sample.blank; More.link_header;
                      Sample.three_images_row])
      = Ok [permit_data]
      ∧ last_parsed_url Json.loads (link_options Sample.three_images_cell)
        = VStr (py "http://d/5b")
      ∧ permit_data !! py "PlatLink" = Some (VStr (py "HOWARD")).
Proof.
  split.
  - exists (Sample.opt "Images (old)" (py "[1, 2]")), (py "[1, 2]").
    repeat split; vm_compute; reflexivity.
  - eexists. split; [vm_compute; reflexivity|].
    split; vm_compute; reflexivity.
Qed.

(** C10 (amended). Take a data row with at least as many cells as the
    header row has header cells, under a header row that has at least one
    header cell and names no column PlatLink after the first, the other
    data rows being parsed without exception, and let every Images option
    of its first cell have no value attribute, a value the decoder rejects
    as invalid JSON, or a value that is a JSON object. The scan does not
    stop at the first Images option: the link of the record of that row is
    the [url] member (the empty string for an object without one) of the
    last Images option, in document order, whose value parses as a JSON
    object, and the empty string when there is none; an option that does
    not parse leaves the link an earlier one gave. *)
Theorem last_images_option_wins json_loads soup blank_row header_row before
    row after first rest :
  page_rows soup = Some (blank_row :: header_row :: before ++ row :: after) ->
  header_names header_row ≠ [] ->
  find_all (py "td") row = first :: rest ->
  length (drop 1 (header_names header_row)) ≤ length rest ->
  py "PlatLink" ∉ drop 1 (header_names header_row) ->
  Forall (fun r => ∃ o, parse_row json_loads
                          (canonical_headers header_row) r = Ok o)
         (before ++ after) ->
  Forall (fun o => is_images o = true -> object_or_rejected json_loads o)
         (link_options first) ->
  ∃ earlier (permit_data : permit) later,
    parse_results_table json_loads soup = Ok (earlier ++ permit_data :: later)
    ∧ rows_loop json_loads (canonical_headers header_row) before []
      = Ok earlier
    ∧ permit_data !! py "PlatLink"
      = Some (last_parsed_url json_loads (link_options first)).
Proof.
  intros Hrows Hnames Hcols Hlen Hfresh Hothers Hoptions.
  eapply parse_page_row; eauto.
  by apply scan_options_last.
Qed.

Lemma last_images_option_wins_witness :
  ∃ earlier (permit_data : permit) later,
    parse_results_table Json.loads
      (Sample.page [Sample.blank; Sample.header; Sample.plain_row;
                    Sample.three_images_row])
    = Ok (earlier ++ permit_data :: later)
    ∧ rows_loop Json.loads (canonical_headers Sample.header)
                [Sample.plain_row] [] = Ok earlier
    ∧ permit_data !! py "PlatLink" = Some (VStr (py "http://d/5b")).
Proof.
  eapply (last_images_option_wins Json.loads _ Sample.blank Sample.header
            [Sample.plain_row] Sample.three_images_row []
            Sample.three_images_cell).
  - reflexivity.
  - vm_compute. discriminate.
  - reflexivity.
  - vm_compute. lia.
  - apply (bool_decide_unpack _). vm_compute. exact I.
  - repeat constructor. eexists. vm_compute. reflexivity.
  - constructor; [intros _; vm_compute; exact I|].
    constructor; [intros _; vm_compute; exact I|].
    constructor; [intros _; vm_compute; reflexivity|constructor].
Defined.

(* ===================================================================== *)
(** ** The search session driver *)
(* ===================================================================== *)

(** Runs the session code of the goal as far as the answers are known. *)
Ltac session_run :=
  unfold mbind, session_bind, finally, except, ask, get, update, lift,
    mret, session_ret;
  cbn [fst snd app].

Lemma omap_filter_is_Some {A B} (f : A -> option B) (l : list A) :
  omap f (filter (fun a => is_Some (f a)) l) = omap f l.
Proof.
  induction l as [|a l IH]; [reflexivity|].
  rewrite filter_cons. destruct (decide (is_Some (f a))) as [Hsome|Hnone].
  - simpl. destruct (f a); simpl; [f_equal|]; exact IH.
  - simpl. destruct (f a) eqn:Hfa; [|exact IH].
    exfalso. apply Hnone. eauto.
Qed.

Lemma omap_all_None {A B} (f : A -> option B) (l : list A) :
  Forall (fun a => f a = None) l -> omap f l = [].
Proof.
  induction 1 as [|a l Ha _ IH]; [reflexivity|]. simpl. rewrite Ha. exact IH.
Qed.

(** More fuel does not change a walk that has ended. *)
Lemma page_walk_more_fuel json_loads env fuel : ∀ page_num st r extra,
  page_walk json_loads env fuel page_num st = Some r ->
  page_walk json_loads env (fuel + extra) page_num st = Some r.
Proof.
  induction fuel as [|fuel IH]; intros page_num st r extra; [discriminate|].
  cbn [page_walk Nat.add]. session_run.
  destruct (content_r (s_pages env page_num)) as [soup|e]; [|done].
  destruct (parse_results_table json_loads soup) as [[|p ps]|e]; [done| |done].
  destruct (count_r (s_pages env page_num)) as [n|e]; [|done].
  destruct (decide (0 < n)); [|done].
  destruct (next_click_r (s_pages env page_num)) as [[]|e]; [|done].
  destruct (settle_r (s_pages env page_num)) as [[]|e]; [|done].
  apply IH.
Qed.

(** A navigation that fails is an exception of the session steps, with
    nothing accumulated. *)
Lemma navigation_failure json_loads env fuel config e st :
  s_goto env = Raise e ->
  session_steps json_loads env fuel config st
  = Some (Raise e, (st.1, st.2 ++ [Goto RRC_URL 60000])).
Proof.
  intros Hgoto. unfold session_steps, submit_search. rewrite Hgoto.
  by session_run.
Qed.

(** So is an exception of the parser in the pagination loop: the records
    of the pages before are kept. *)
Lemma parser_failure_in_walk json_loads env fuel page_num soup e st :
  content_r (s_pages env page_num) = Ok soup ->
  parse_results_table json_loads soup = Raise e ->
  page_walk json_loads env (S fuel) page_num st
  = Some (Raise e, (st.1, st.2 ++ [Content])).
Proof.
  intros Hcontent Hparse. cbn [page_walk]. rewrite Hcontent. session_run.
  by rewrite Hparse.
Qed.

(** C6. When no configured county name resolves through the registry the
    driver returns the empty frame at once: nothing is accumulated and no
    call is made, so that no browsing session is opened. In every
    configuration the names that do not resolve are dropped: the run is
    the run of the configuration without them. *)
Theorem unresolved_counties json_loads env fuel config :
  (Forall (fun county => get_county_codes !! county = None) (counties config)
   -> scrape_permits json_loads env fuel config = Some (Ok [], ([], [])))
  ∧ scrape_permits json_loads env fuel config
    = scrape_permits json_loads env fuel
        {| counties := filter (fun county =>
                                 is_Some (get_county_codes !! county))
                              (counties config);
           date_range := date_range config |}.
Proof.
  split.
  - intros Hnone. unfold scrape_permits, selected_county_codes.
    by rewrite omap_all_None.
  - unfold scrape_permits, search_session, session_steps, submit_search,
      selected_county_codes.
    cbn [counties date_range]. by rewrite omap_filter_is_Some.
Qed.

Lemma unresolved_counties_witness :
  scrape_permits Json.loads Sample.site 3 Sample.nowhere
  = Some (Ok [], ([], [])).
Proof.
  apply (proj1 (unresolved_counties Json.loads Sample.site 3 Sample.nowhere)).
  repeat constructor.
Defined.

(** Two result pages, the second one without data rows: the walk stops
    after the second page with the two records of the first, and no
    screenshot is taken. *)
Lemma two_page_walk :
  ∃ first second : permit,
    scrape_permits Json.loads Sample.two_page_site 2 Sample.andrews
    = Some (Ok [first; second],
            ([first; second],
             [PlaywrightStart; Launch true; NewPage; Goto RRC_URL 60000;
              SelectOption county_select [py "003"];
              Fill from_input (py "01/01/2024");
              Fill to_input (py "01/31/2024"); Click submit_button;
              WaitForSelector (py "table.DataGrid"); Content;
              Count next_link; Click next_link;
              WaitForLoadState (py "networkidle"); Content; BrowserClose;
              PlaywrightStop]))
    ∧ first !! py "PlatLink" = Some (VStr (py "http://d/1"))
    ∧ second !! py "County" = Some (VStr (py "HOWARD")).
Proof. do 2 eexists. repeat split; vm_compute; reflexivity. Qed.

(** C9 (as stated, it fails). The second result page times out after the
    first one gave a record; the screenshot raises in its turn, and the
    driver does not return the record: the exception of the screenshot
    reaches the caller. *)
Lemma screenshot_failure_reaches_caller :
  ∃ (permit_data : permit) log,
    session_steps Json.loads Sample.dead_site 3 Sample.andrews
      ([], [PlaywrightStart; Launch true; NewPage])
    = Some (Raise Sample.timeout, ([permit_data], log))
    ∧ scrape_permits Json.loads Sample.dead_site 3 Sample.andrews
      = Some (Raise Sample.closed,
              ([permit_data],
               log ++ [Screenshot (py "error_screenshot.png"); BrowserClose;
                       PlaywrightStop])).
Proof.
  eexists. eexists. split; vm_compute; reflexivity.
Qed.

(** C9 (amended). An exception raised during the session steps
    (navigation, form fill, submit, pagination loop) is caught at the outer
    level: a screenshot is asked for, the browser is closed and Playwright
    stopped. When these three calls succeed the driver returns the records
    accumulated so far; when one of them raises, its exception, and not
    the one of the session step, reaches the caller. *)
Theorem session_failure_is_caught json_loads env fuel config e
    all_permits_data log :
  selected_county_codes config ≠ [] ->
  s_start env = Ok tt -> s_launch env = Ok tt -> s_new_page env = Ok tt ->
  session_steps json_loads env fuel config
    ([], [PlaywrightStart; Launch true; NewPage])
  = Some (Raise e, (all_permits_data, log)) ->
  scrape_permits json_loads env fuel config
  = Some (after_failure env all_permits_data,
          (all_permits_data,
           log ++ [Screenshot (py "error_screenshot.png"); BrowserClose;
                   PlaywrightStop])).
Proof.
  intros Hcodes Hstart Hlaunch Hpage Hsteps.
  unfold scrape_permits.
  destruct (selected_county_codes config) as [|code codes]; [done|].
  unfold search_session, after_failure.
  remember (session_steps json_loads env fuel config) as steps eqn:Hdef.
  clear Hdef. rewrite Hstart, Hlaunch, Hpage.
  session_run. rewrite Hsteps.
  destruct (s_screenshot env) as [[]|e1], (s_close env) as [[]|e2],
    (s_stop env) as [[]|e3]; session_run; rewrite <- ?app_assoc;
    reflexivity.
Qed.

Lemma session_failure_is_caught_witness :
  ∃ (permit_data : permit) log,
    scrape_permits Json.loads Sample.site 3 Sample.andrews
    = Some (Ok [permit_data], ([permit_data], log))
    ∧ permit_data !! py "API NO." = Some (VStr (py "42-003-1")).
Proof.
  eexists. eexists. split.
  - eapply (session_failure_is_caught Json.loads Sample.site 3 Sample.andrews
              Sample.timeout).
    + vm_compute. discriminate.
    + reflexivity.
    + reflexivity.
    + reflexivity.
    + vm_compute. reflexivity.
  - vm_compute. reflexivity.
Defined.

(* ===================================================================== *)
(** ** The plat retrieval orchestrator *)
(* ===================================================================== *)

Lemma truthy_some (s : pystr) : s ≠ [] -> truthy (Some s) = true.
Proof. by destruct s. Qed.

(** Sub-documents that all download leave [plat_file_paths] as it is. *)
Lemma subdocs_loop_ok v county api_no numbers :
  (∀ j step, sub_r v j step = Ok tt) ->
  ∀ j paths log,
    subdocs_loop v county api_no j numbers (paths, log)
    = Some (Ok tt,
            (paths, log ++ flat_map (subdoc_calls county api_no) numbers)).
Proof.
  intros Hsub. induction numbers as [|record_num rest IH]; intros j paths log.
  - simpl. session_run. by rewrite app_nil_r.
  - cbn [subdocs_loop]. rewrite !Hsub. session_run. rewrite IH.
    cbn [flat_map]. unfold subdoc_calls. by rewrite <- !app_assoc.
Qed.

Lemma fetch_ok v plat_link county api_no numbers paths log :
  succeeds v numbers ->
  fetch v plat_link county api_no (paths, log)
  = Some (Ok tt,
          (paths,
           log ++ open_calls plat_link
               ++ flat_map (subdoc_calls county api_no) numbers)).
Proof.
  intros (_ & _ & Hgoto & Hmenu & Hnumbers & Hsub). unfold fetch.
  rewrite Hgoto, Hmenu, Hnumbers. session_run.
  rewrite subdocs_loop_ok by exact Hsub.
  unfold open_calls. by rewrite <- !app_assoc.
Qed.

(** The branch a row with a link takes. *)
Lemma visit_record_linked v row plat_link api_no :
  has_link row plat_link api_no ->
  visit_record v row
  = (ask (MakeDirs (download_dir_of (county_of row))) (makedirs_r v);;
     present ← ask (PathExists (target_path (county_of row) api_no))
                   (Ok (exists_r v));
     if present : bool
     then append (target_path (county_of row) api_no)
     else except (fetch v plat_link (county_of row) api_no)
                 (fun e => append [])).
Proof.
  intros (Hlink & Hlink_ne & Hapi & Hapi_ne). unfold visit_record, county_of.
  rewrite Hlink, Hapi, !truthy_some by done. reflexivity.
Qed.

(** A record whose downloads all succeed appends nothing. *)
Lemma visit_record_success v row plat_link api_no numbers paths log :
  has_link row plat_link api_no ->
  succeeds v numbers ->
  visit_record v row (paths, log)
  = Some (Ok tt,
          (paths,
           log ++ [MakeDirs (download_dir_of (county_of row));
                   PathExists (target_path (county_of row) api_no)]
               ++ open_calls plat_link
               ++ flat_map (subdoc_calls (county_of row) api_no) numbers)).
Proof.
  intros Hrow Hv. rewrite (visit_record_linked _ _ _ _ Hrow).
  pose proof Hv as (Hdirs & Hexists & _). rewrite Hdirs, Hexists.
  session_run. rewrite (fetch_ok _ _ _ _ numbers) by exact Hv.
  by rewrite <- !app_assoc.
Qed.

(** A record whose navigation raises appends the empty path; the
    exception goes no further. *)
Lemma visit_record_failure v row plat_link api_no e paths log :
  has_link row plat_link api_no ->
  navigation_fails v e ->
  visit_record v row (paths, log)
  = Some (Ok tt,
          (paths ++ [[]],
           log ++ [MakeDirs (download_dir_of (county_of row));
                   PathExists (target_path (county_of row) api_no);
                   Goto plat_link 60000])).
Proof.
  intros Hrow (Hdirs & Hexists & Hgoto).
  rewrite (visit_record_linked _ _ _ _ Hrow). unfold fetch, append.
  rewrite Hdirs, Hexists, Hgoto. session_run. by rewrite <- !app_assoc.
Qed.

(** Whatever the browser answers, an exception raised while a record is
    fetched is caught: the visit ends without exception, with the empty
    path appended. *)
Lemma visit_record_isolated v row plat_link api_no e paths log paths' log' :
  has_link row plat_link api_no ->
  makedirs_r v = Ok tt -> exists_r v = false ->
  fetch v plat_link (county_of row) api_no
    (paths, log ++ [MakeDirs (download_dir_of (county_of row));
                    PathExists (target_path (county_of row) api_no)])
  = Some (Raise e, (paths', log')) ->
  visit_record v row (paths, log) = Some (Ok tt, (paths' ++ [[]], log')).
Proof.
  intros Hrow Hdirs Hexists Hfetch.
  rewrite (visit_record_linked _ _ _ _ Hrow). rewrite Hdirs, Hexists.
  remember (fetch v plat_link (county_of row) api_no) as body eqn:Hbody in *.
  clear Hbody. unfold append. session_run.
  rewrite <- app_assoc. cbn [app]. by rewrite Hfetch.
Qed.

Lemma download_run env df :
  browser_works env ->
  download_plat_files env df
  = match records_loop env 0 df
            ([], [PlaywrightStart; Launch false; NewContext; NewPage]) with
    | Some (Ok _, (paths, log)) =>
        Some (set_column df (py "PlatFilePath") paths,
              (paths, log ++ [BrowserClose; PlaywrightStop]))
    | Some (Raise e, (paths, log)) =>
        Some (Raise e, (paths, log ++ [PlaywrightStop]))
    | None => None
    end.
Proof.
  intros (Hstart & Hlaunch & Hcontext & Hpage & Hclose & Hstop).
  unfold download_plat_files, retrieval_session.
  rewrite Hstart, Hlaunch, Hcontext, Hpage, Hclose, Hstop.
  remember (records_loop env 0 df) as loop eqn:Hloop. clear Hloop.
  session_run.
  destruct (loop _) as [[[[]|e] [paths log]]|]; session_run;
    rewrite <- ?app_assoc; reflexivity.
Qed.

(** C1 (the code departs from it). A record whose downloads all succeed
    contributes no outcome: for a frame of one such record the list of
    outcomes is empty and the assignment of the column raises
    [ValueError], for lack of one outcome per record. *)
Theorem successful_record_has_no_outcome env row plat_link api_no numbers :
  browser_works env ->
  has_link row plat_link api_no ->
  succeeds (r_visits env 0) numbers ->
  ∃ log, download_plat_files env [row] = Some (Raise ValueError, ([], log)).
Proof.
  intros Henv Hrow Hvisit. rewrite download_run by exact Henv.
  cbn [records_loop]. unfold mbind, session_bind.
  rewrite (visit_record_success _ _ _ _ numbers) by done.
  session_run. eauto.
Qed.

Lemma successful_record_has_no_outcome_witness :
  ∃ log,
    download_plat_files (Sample.browser (fun _ => Sample.viewer [py "1"]))
                        [Sample.andrews_1]
    = Some (Raise ValueError, ([], log)).
Proof.
  eapply (successful_record_has_no_outcome _ _ (py "http://d/1")
            (py "42-003-1") [py "1"]).
  - repeat split.
  - repeat split; try reflexivity; vm_compute; discriminate.
  - repeat split.
Defined.

Lemma startswith_slash_app (api_no tail tail' : pystr) :
  startswith (py "/") tail = false -> startswith (py "/") tail' = false ->
  startswith (py "/") (api_no ++ tail) = startswith (py "/") (api_no ++ tail').
Proof.
  intros Htail Htail'. destruct api_no as [|c api_no]; simpl in *.
  - by rewrite Htail, Htail'.
  - reflexivity.
Qed.

Lemma path_join_differ (dir file file' : pystr) :
  startswith (py "/") file = startswith (py "/") file' ->
  file ≠ file' -> path_join dir file ≠ path_join dir file'.
Proof.
  intros Hsame Hne. unfold path_join. rewrite <- Hsame.
  destruct (startswith (py "/") file); [done|].
  destruct (bool_decide (dir = []) || endswith_sep dir).
  - intros Heq. by apply app_inv_head in Heq.
  - intros Heq. by do 2 apply app_inv_head in Heq.
Qed.

(** The path that is written is never the path that is tested. *)
Lemma saved_path_is_not_target county api_no record_num :
  saved_path county api_no record_num ≠ target_path county api_no.
Proof.
  unfold saved_path, target_path. apply path_join_differ.
  - by apply startswith_slash_app.
  - intros Heq. apply app_inv_head in Heq. discriminate.
Qed.

(** The written path, for a county name that is not empty and has no
    separator at either end, and an API number that does not start with
    one. *)
Lemma saved_path_plain county api_no record_num :
  county ≠ [] ->
  startswith (py "/") county = false -> endswith_sep county = false ->
  startswith (py "/") api_no = false ->
  saved_path county api_no record_num
  = py "data/plat_files/" ++ county ++ py "/" ++ api_no ++ py "_"
    ++ record_num ++ py ".tif".
Proof.
  intros Hcounty Hhead Htail Hapi. unfold saved_path, download_dir_of.
  change (path_join (py "data") (py "plat_files")) with (py "data/plat_files").
  unfold path_join at 2. rewrite Hhead.
  change (bool_decide (py "data/plat_files" = []) || endswith_sep (py "data/plat_files"))
    with false. cbv iota.
  unfold path_join.
  assert (Hfile : startswith (py "/") (api_no ++ py "_" ++ record_num ++ py ".tif")
                  = false).
  { destruct api_no as [|c api_no]; [reflexivity|exact Hapi]. }
  rewrite Hfile.
  assert (Hdir : endswith_sep (py "data/plat_files" ++ py "/" ++ county) = false).
  { unfold endswith_sep in *. rewrite !last_app.
    destruct (last county) as [c|] eqn:Hlast; [exact Htail|].
    by apply last_None in Hlast. }
  rewrite Hdir, orb_false_r.
  rewrite bool_decide_eq_false_2 by done.
  by rewrite <- !app_assoc.
Qed.

(** C3 (the code departs from it). When the page of a record shows a
    single record number, the one file is saved under the name made of
    the API number, an underscore and the record number, as it is for
    several record numbers: no file is written at the path made of the
    API number alone, which is the path the orchestrator tests. The
    directory is that of the county of the record, [UnknownCounty] when
    the record has none. *)
Theorem single_document_path v row plat_link api_no record_num paths log :
  has_link row plat_link api_no ->
  succeeds v [record_num] ->
  visit_record v row (paths, log)
  = Some (Ok tt,
          (paths,
           log ++ [MakeDirs (download_dir_of (county_of row));
                   PathExists (target_path (county_of row) api_no)]
               ++ open_calls plat_link
               ++ subdoc_calls (county_of row) api_no record_num))
  ∧ saved_path (county_of row) api_no record_num
    ≠ target_path (county_of row) api_no
  ∧ (row !! py "County" = None -> county_of row = py "UnknownCounty").
Proof.
  intros Hrow Hv. split; [|split].
  - rewrite (visit_record_success _ _ _ _ [record_num]) by done.
    cbn [flat_map]. by rewrite app_nil_r.
  - apply saved_path_is_not_target.
  - intros Hnone. unfold county_of. by rewrite Hnone.
Qed.

Lemma single_document_path_witness :
  ∃ log,
    visit_record (Sample.viewer [py "1"]) Sample.andrews_1 ([], [])
    = Some (Ok tt, ([], log))
    ∧ List.filter (fun c => match c with SaveAs _ => true | _ => false end) log
      = [SaveAs (py "data/plat_files/ANDREWS/42-003-1_1.tif")].
Proof.
  eexists. split.
  - eapply (proj1 (single_document_path (Sample.viewer [py "1"])
                     Sample.andrews_1 (py "http://d/1") (py "42-003-1")
                     (py "1") [] [] _ _)).
  - vm_compute. reflexivity.
  Unshelve.
  + repeat split; try reflexivity; vm_compute; discriminate.
  + repeat split.
Defined.

(** C7. A record whose target file (under the data directory:
    data/plat_files/<county>/<apiNumber>.tif, [target_path]) is already
    there costs two calls to the filesystem and none to the browser: no
    navigation, no download and no write. Its outcome is the path of the
    target file, and the loop goes on with the next record. *)
Theorem existing_file_is_not_fetched env i row rest plat_link api_no paths
    log :
  has_link row plat_link api_no ->
  makedirs_r (r_visits env i) = Ok tt ->
  exists_r (r_visits env i) = true ->
  records_loop env i (row :: rest) (paths, log)
  = records_loop env (S i) rest
      (paths ++ [target_path (county_of row) api_no],
       log ++ [MakeDirs (download_dir_of (county_of row));
               PathExists (target_path (county_of row) api_no)])
  ∧ Forall (fun c => is_session_call c = false)
           [MakeDirs (download_dir_of (county_of row));
            PathExists (target_path (county_of row) api_no)].
Proof.
  intros Hrow Hdirs Hexists. split; [|by repeat constructor].
  cbn [records_loop]. rewrite (visit_record_linked _ _ _ _ Hrow).
  rewrite Hdirs, Hexists. unfold append. session_run.
  by rewrite <- app_assoc.
Qed.

Lemma existing_file_is_not_fetched_witness :
  records_loop (Sample.browser (fun _ => Sample.on_disk)) 0
    [Sample.andrews_1; Sample.ector_2] ([], [])
  = Some (Ok tt,
          ([py "data/plat_files/ANDREWS/42-003-1.tif";
            py "data/plat_files/ECTOR/42-135-2.tif"],
           [MakeDirs (py "data/plat_files/ANDREWS");
            PathExists (py "data/plat_files/ANDREWS/42-003-1.tif");
            MakeDirs (py "data/plat_files/ECTOR");
            PathExists (py "data/plat_files/ECTOR/42-135-2.tif")])).
Proof.
  rewrite (proj1 (existing_file_is_not_fetched
                    (Sample.browser (fun _ => Sample.on_disk)) 0
                    Sample.andrews_1 [Sample.ector_2] (py "http://d/1")
                    (py "42-003-1") [] []
                    ltac:(repeat split; try reflexivity; vm_compute;
                          discriminate)
                    eq_refl eq_refl)).
  vm_compute. reflexivity.
Defined.

(** A second run over records whose files are all there ends with the
    frame completed, and without a call to the browser between the opening
    and the closing of the session. *)
Lemma second_run_fetches_nothing :
  ∃ frame,
    download_plat_files (Sample.browser (fun _ => Sample.on_disk))
                        [Sample.andrews_1; Sample.ector_2]
    = Some (Ok frame,
            ([py "data/plat_files/ANDREWS/42-003-1.tif";
              py "data/plat_files/ECTOR/42-135-2.tif"],
             [PlaywrightStart; Launch false; NewContext; NewPage;
              MakeDirs (py "data/plat_files/ANDREWS");
              PathExists (py "data/plat_files/ANDREWS/42-003-1.tif");
              MakeDirs (py "data/plat_files/ECTOR");
              PathExists (py "data/plat_files/ECTOR/42-135-2.tif");
              BrowserClose; PlaywrightStop]))
    ∧ (λ row : row, row !! py "PlatFilePath") <$> frame
      = [Some (py "data/plat_files/ANDREWS/42-003-1.tif");
         Some (py "data/plat_files/ECTOR/42-135-2.tif")].
Proof. eexists. split; vm_compute; reflexivity. Qed.

(** C8 (the code departs from it). The exception of the failing record
    is caught and its empty path recorded, but the record before it, whose
    downloads all succeeded, has no outcome: the outcomes are one for two
    records, and the assignment of the column raises [ValueError]. *)
Theorem failing_record_beside_successful_one env first second first_link
    first_api second_link second_api numbers e :
  browser_works env ->
  has_link first first_link first_api ->
  has_link second second_link second_api ->
  succeeds (r_visits env 0) numbers ->
  navigation_fails (r_visits env 1) e ->
  ∃ log,
    download_plat_files env [first; second]
    = Some (Raise ValueError, ([[]], log)).
Proof.
  intros Henv Hfirst Hsecond Hok Hfails. rewrite download_run by exact Henv.
  cbn [records_loop]. unfold mbind, session_bind.
  rewrite (visit_record_success _ _ _ _ numbers) by done.
  rewrite (visit_record_failure _ _ _ _ e) by done.
  session_run. eauto.
Qed.

Lemma failing_record_beside_successful_one_witness :
  ∃ log,
    download_plat_files
      (Sample.browser (fun i => match i with
                                | 0 => Sample.viewer [py "1"; py "2"]
                                | _ => Sample.unreachable
                                end))
      [Sample.andrews_1; Sample.ector_2]
    = Some (Raise ValueError, ([[]], log)).
Proof.
  eapply (failing_record_beside_successful_one _ _ _ (py "http://d/1")
            (py "42-003-1") (py "http://d/2") (py "42-135-2")
            [py "1"; py "2"] Sample.timeout).
  - repeat split.
  - repeat split; try reflexivity; vm_compute; discriminate.
  - repeat split; try reflexivity; vm_compute; discriminate.
  - repeat split.
  - repeat split.
Defined.

(* ===================================================================== *)
(** ** The parser: more properties *)
(* ===================================================================== *)

Section ParserMore.

Variable json_loads : pystr -> pyresult pyval.

Lemma fill_columns_filled names : ∀ cols i (permit_data : permit),
  i + length names ≤ length cols ->
  fill_columns cols i names permit_data
  = Ok (filled names (drop i cols) permit_data).
Proof.
  induction names as [|header rest IH]; intros cols i permit_data Hlen;
    [reflexivity|].
  cbn [fill_columns length] in *. unfold index.
  destruct (lookup_lt_is_Some_2 cols i) as [c Hc]; [lia|].
  rewrite Hc, bind_ok, IH by lia.
  rewrite (drop_S cols c i Hc). reflexivity.
Qed.

(** The record of a row with enough cells. *)
Lemma parse_row_record header_row row first rest plat_link :
  find_all (py "td") row = first :: rest ->
  length (drop 1 (header_names header_row)) ≤ length rest ->
  scan_options json_loads (link_options first) (VStr []) = Ok plat_link ->
  parse_row json_loads (canonical_headers header_row) row
  = Ok (Some (filled (drop 1 (header_names header_row)) rest
                (<[py "PlatLink" := plat_link]>
                   (<[py "API NO." := VStr (api_no_of first)]> ∅)))).
Proof.
  intros Hcols Hlen Hscan. unfold parse_row.
  rewrite Hcols, plat_link_of_options, Hscan, bind_ok, drop_canonical.
  rewrite fill_columns_filled by (cbn [length]; lia). reflexivity.
Qed.

Lemma filled_cons (name : pystr) (names : list pystr) (c : node)
    (cells : list node)
    (permit_data : permit) :
  filled (name :: names) (c :: cells) permit_data
  = filled names cells (<[name := VStr (cell_text c)]> permit_data).
Proof. reflexivity. Qed.

Lemma filled_other names : ∀ cells (permit_data : permit) k,
  k ∉ names -> filled names cells permit_data !! k = permit_data !! k.
Proof.
  induction names as [|name names IH]; intros cells permit_data k Hk;
    [reflexivity|].
  destruct cells as [|c cells]; [reflexivity|].
  rewrite filled_cons, IH by (intros Hin; apply Hk; by right).
  apply lookup_insert_ne. intros <-. apply Hk. left.
Qed.

(** A name takes the text of the cell at its position, unless the name
    comes again further right. *)
Lemma filled_at names : ∀ cells (permit_data : permit) j name c,
  names !! j = Some name -> cells !! j = Some c ->
  name ∉ drop (S j) names ->
  filled names cells permit_data !! name = Some (VStr (cell_text c)).
Proof.
  induction names as [|n names IH]; intros cells permit_data j name c
    Hname Hcell Hlater; [done|].
  destruct cells as [|c0 cells]; [done|].
  rewrite filled_cons. destruct j as [|j].
  - injection Hname as ->. injection Hcell as ->.
    rewrite filled_other by exact Hlater. apply lookup_insert_eq.
  - by apply (IH _ _ j).
Qed.

Lemma well_formed_parses header_row row :
  well_formed json_loads header_row row ->
  ∃ o, parse_row json_loads (canonical_headers header_row) row = Ok o.
Proof.
  unfold well_formed. destruct (find_all (py "td") row) as [|first rest] eqn:Hc.
  - intros _. exists None. unfold parse_row. by rewrite Hc.
  - intros [Hlen Hopts]. eexists.
    eapply parse_row_record; [exact Hc|exact Hlen|].
    by apply scan_options_last.
Qed.

Lemma parse_results_table_loop soup blank_row header_row data_rows :
  page_rows soup = Some (blank_row :: header_row :: data_rows) ->
  header_names header_row ≠ [] ->
  parse_results_table json_loads soup
  = rows_loop json_loads (canonical_headers header_row) data_rows [].
Proof.
  intros Hrows Hnames. destruct data_rows as [|row rest].
  - unfold page_rows, parse_results_table in *.
    destruct (find_class _ _ soup) as [results_table|]; [|discriminate].
    simpl in Hrows.
    destruct (find _ results_table) as [table_body|]; [|discriminate].
    simpl in Hrows. injection Hrows as ->. reflexivity.
  - by apply (parse_results_table_rows json_loads soup blank_row).
Qed.

Lemma rows_loop_records header_row data_rows :
  py "API NO." ∉ drop 1 (header_names header_row) ->
  Forall (well_formed json_loads header_row) data_rows ->
  ∃ records,
    rows_loop json_loads (canonical_headers header_row) data_rows []
    = Ok records
    ∧ Forall2 (fun row (permit_data : permit) =>
                 ∃ first rest,
                   find_all (py "td") row = first :: rest
                   ∧ permit_data !! py "API NO."
                     = Some (VStr (api_no_of first)))
              (List.filter has_cells data_rows) records.
Proof.
  intros Hfresh. induction 1 as [|row rows Hrow _ (records & Hrun & Hall)].
  - exists []. split; [reflexivity|constructor].
  - unfold well_formed in Hrow. cbn [rows_loop List.filter]. unfold has_cells.
    destruct (find_all (py "td") row) as [|first rest] eqn:Hcols.
    + unfold parse_row. rewrite Hcols, bind_ok. eauto.
    + destruct Hrow as [Hlen Hopts].
      rewrite (parse_row_record header_row row first rest _ Hcols Hlen
                 (scan_options_last json_loads _ _ Hopts)), bind_ok.
      rewrite rows_loop_acc, Hrun, bind_ok. eexists. split; [reflexivity|].
      constructor; [|exact Hall].
      exists first, rest. split; [exact Hcols|].
      rewrite filled_other by exact Hfresh.
      rewrite lookup_insert_ne by discriminate. apply lookup_insert_eq.
Qed.

(** X1. On a page whose header row has at least one header cell and
    names no column [API NO.] after the first, and all of whose data rows
    are well formed, the parser gives one record for each data row that
    has cells, in the order of the rows; the API number of a record is the
    stripped text of the first link of the first cell of its row, or the
    empty string when the cell has no link. *)
Theorem one_record_per_row_with_cells soup blank_row header_row data_rows :
  page_rows soup = Some (blank_row :: header_row :: data_rows) ->
  header_names header_row ≠ [] ->
  py "API NO." ∉ drop 1 (header_names header_row) ->
  Forall (well_formed json_loads header_row) data_rows ->
  ∃ records,
    parse_results_table json_loads soup = Ok records
    ∧ Forall2 (fun row (permit_data : permit) =>
                 ∃ first rest,
                   find_all (py "td") row = first :: rest
                   ∧ permit_data !! py "API NO."
                     = Some (VStr (api_no_of first)))
              (List.filter has_cells data_rows) records.
Proof.
  intros Hrows Hnames Hfresh Hall.
  rewrite (parse_results_table_loop _ _ _ _ Hrows Hnames).
  by apply rows_loop_records.
Qed.

(** X2. The cells after the first map to the header names by position:
    the record of a row gives to the name of the j-th header cell after
    the first the normalised text of the j-th cell after the first, unless
    the same name comes again further right in the header. *)
Theorem cells_follow_headers soup blank_row header_row before row after first
    rest j name c :
  page_rows soup = Some (blank_row :: header_row :: before ++ row :: after) ->
  header_names header_row ≠ [] ->
  Forall (well_formed json_loads header_row) (before ++ row :: after) ->
  find_all (py "td") row = first :: rest ->
  drop 1 (header_names header_row) !! j = Some name ->
  rest !! j = Some c ->
  name ∉ drop (S j) (drop 1 (header_names header_row)) ->
  ∃ earlier (permit_data : permit) later,
    parse_results_table json_loads soup = Ok (earlier ++ permit_data :: later)
    ∧ rows_loop json_loads (canonical_headers header_row) before []
      = Ok earlier
    ∧ permit_data !! name = Some (VStr (cell_text c)).
Proof.
  intros Hrows Hnames Hall Hcols Hname Hcell Hlater.
  apply Forall_app in Hall as [Hbefore Hall].
  apply Forall_cons in Hall as [Hrow Hafter].
  unfold well_formed in Hrow. rewrite Hcols in Hrow.
  destruct Hrow as [Hlen Hopts].
  pose proof (parse_row_record _ _ _ _ _ Hcols Hlen
                (scan_options_last json_loads _ _ Hopts)) as Hrecord.
  destruct (rows_loop_split json_loads _ before row after _
              ltac:(apply Forall_app; split;
                    (eapply Forall_impl; [eassumption|];
                     apply well_formed_parses)) Hrecord)
    as (earlier & later & Hrun & Hearlier).
  eexists earlier, _, later.
  rewrite (parse_results_table_loop _ _ _ _ Hrows Hnames).
  split; [exact Hrun|]. split; [exact Hearlier|].
  by apply (filled_at _ _ _ j).
Qed.

Lemma rows_loop_skip headers before row after : ∀ done,
  find_all (py "td") row = [] ->
  rows_loop json_loads headers (before ++ row :: after) done
  = rows_loop json_loads headers (before ++ after) done.
Proof.
  intros done Hcols. revert done.
  induction before as [|r before IH]; intros done.
  - cbn [app rows_loop]. unfold parse_row at 1. by rewrite Hcols.
  - cbn [app rows_loop].
    destruct (parse_row json_loads headers r) as [o|e]; [|reflexivity].
    rewrite !bind_ok. apply IH.
Qed.

(** X3. Under a header row that has at least one header cell, a row
    without cells among the data rows is passed over: the page parses as
    the page without that row does. *)
Theorem rows_without_cells_are_skipped soup soup' blank_row header_row before
    row after :
  page_rows soup = Some (blank_row :: header_row :: before ++ row :: after) ->
  page_rows soup' = Some (blank_row :: header_row :: before ++ after) ->
  header_names header_row ≠ [] ->
  find_all (py "td") row = [] ->
  parse_results_table json_loads soup = parse_results_table json_loads soup'.
Proof.
  intros Hrows Hrows' Hnames Hcols.
  rewrite (parse_results_table_loop _ _ _ _ Hrows Hnames).
  rewrite (parse_results_table_loop _ _ _ _ Hrows' Hnames).
  by apply rows_loop_skip.
Qed.

Lemma scan_options_app options : ∀ more plat_link,
  scan_options json_loads (options ++ more) plat_link
  = (scan_options json_loads options plat_link
     ≫= scan_options json_loads more).
Proof.
  induction options as [|o options IH]; intros more plat_link;
    [reflexivity|].
  cbn [app scan_options].
  destruct (contains (py "Images") (text o)); [|apply IH].
  destruct (try_except _ _ _) as [link|e]; [|reflexivity].
  rewrite !bind_ok. apply IH.
Qed.

(** X4. In the first data row of a page, under a header row that has at
    least one header cell, a value of an Images option that is valid JSON
    but not an object is fatal when the Images options before it are
    harmless (no value, a value the decoder rejects, or an object):
    [AttributeError] leaves the parser, the [except] clause being for
    [JSONDecodeError] and [KeyError] only. *)
Theorem non_object_value_raises soup blank_row header_row row after first rest
    options o more value value_json :
  page_rows soup = Some (blank_row :: header_row :: row :: after) ->
  header_names header_row ≠ [] ->
  find_all (py "td") row = first :: rest ->
  link_options first = options ++ o :: more ->
  Forall (fun o => is_images o = true -> object_or_rejected json_loads o)
         options ->
  is_images o = true ->
  getitem o (py "value") = Ok value ->
  json_loads value = Ok value_json ->
  (∀ items, value_json ≠ VDict items) ->
  parse_results_table json_loads soup = Raise AttributeError.
Proof.
  intros Hrows Hnames Hcols Hoptions Hbefore Himages Hvalue Hloads Hobject.
  rewrite (parse_results_table_loop _ _ _ _ Hrows Hnames).
  cbn [rows_loop]. unfold parse_row.
  rewrite Hcols, plat_link_of_options, Hoptions, scan_options_app.
  rewrite (scan_options_last json_loads _ _ Hbefore), bind_ok.
  cbn [scan_options]. unfold is_images in Himages.
  rewrite Himages, Hvalue, bind_ok, Hloads, bind_ok.
  destruct value_json; try reflexivity. by destruct (Hobject items).
Qed.

End ParserMore.

Lemma one_record_per_row_with_cells_witness :
  ∃ records,
    parse_results_table Json.loads
      (Sample.page [Sample.blank; Sample.header; Sample.plain_row;
                    Sample.header; Sample.two_images_row])
    = Ok records
    ∧ Forall2 (fun row (permit_data : permit) =>
                 ∃ first rest,
                   find_all (py "td") row = first :: rest
                   ∧ permit_data !! py "API NO."
                     = Some (VStr (api_no_of first)))
              [Sample.plain_row; Sample.two_images_row] records.
Proof.
  apply (one_record_per_row_with_cells Json.loads _ Sample.blank Sample.header
           [Sample.plain_row; Sample.header; Sample.two_images_row]).
  - reflexivity.
  - vm_compute. discriminate.
  - apply (bool_decide_unpack _). vm_compute. exact I.
  - repeat constructor; intros Himages; vm_compute in Himages;
      try discriminate; vm_compute; try exact I; reflexivity.
Defined.

Lemma cells_follow_headers_witness :
  ∃ earlier (permit_data : permit) later,
    parse_results_table Json.loads
      (Sample.page [Sample.blank; Sample.header; Sample.plain_row;
                    More.spaced_row])
    = Ok (earlier ++ permit_data :: later)
    ∧ rows_loop Json.loads (canonical_headers Sample.header)
                [Sample.plain_row] [] = Ok earlier
    ∧ permit_data !! py "County" = Some (VStr (py "MIDLAND COUNTY")).
Proof.
  eapply (cells_follow_headers Json.loads _ Sample.blank Sample.header
            [Sample.plain_row] More.spaced_row [] Sample.two_images_cell _ 0
            (py "County") More.county_cell).
  - reflexivity.
  - vm_compute. discriminate.
  - repeat constructor; intros Himages; vm_compute in Himages;
      try discriminate; vm_compute; try exact I; reflexivity.
  - reflexivity.
  - reflexivity.
  - reflexivity.
  - apply (bool_decide_unpack _). vm_compute. exact I.
Defined.

Lemma rows_without_cells_are_skipped_witness :
  parse_results_table Json.loads
    (Sample.page [Sample.blank; Sample.header; Sample.plain_row;
                  Sample.header; Sample.two_images_row])
  = parse_results_table Json.loads
      (Sample.page [Sample.blank; Sample.header; Sample.plain_row;
                    Sample.two_images_row]).
Proof.
  apply (rows_without_cells_are_skipped Json.loads _ _ Sample.blank
           Sample.header [Sample.plain_row] Sample.header
           [Sample.two_images_row]).
  - reflexivity.
  - reflexivity.
  - vm_compute. discriminate.
  - reflexivity.
Defined.

Lemma non_object_value_raises_witness :
  parse_results_table Json.loads
    (Sample.page [Sample.blank; Sample.header; More.array_row])
  = Raise AttributeError.
Proof.
  eapply (non_object_value_raises Json.loads _ Sample.blank Sample.header
            More.array_row [] More.array_cell _ [] More.array_option []
            (py "[1, 2]") (VList [VInt 1; VInt 2])).
  - reflexivity.
  - vm_compute. discriminate.
  - reflexivity.
  - reflexivity.
  - constructor.
  - reflexivity.
  - reflexivity.
  - vm_compute. reflexivity.
  - discriminate.
Defined.

(* ===================================================================== *)
(** ** Strings: splitting and joining *)
(* ===================================================================== *)

Lemma split_from_words s : ∀ cur,
  Forall (fun c => isspace c = false) cur ->
  Forall is_word (split_from cur s).
Proof.
  induction s as [|c s IH]; intros cur Hcur; cbn [split_from].
  - destruct cur as [|a cur]; [constructor|].
    constructor; [by split|constructor].
  - destruct (isspace c) eqn:Hc.
    + destruct cur as [|a cur]; [by apply IH|].
      constructor; [by split|by apply IH].
    + apply IH. apply Forall_app. split; [exact Hcur|by repeat constructor].
Qed.

Lemma split_from_word w : ∀ cur s,
  Forall (fun c => isspace c = false) w ->
  split_from cur (w ++ s) = split_from (cur ++ w) s.
Proof.
  induction w as [|c w IH]; intros cur s Hw; cbn [app].
  - by rewrite app_nil_r.
  - apply Forall_cons in Hw as [Hc Hw]. cbn [split_from]. rewrite Hc.
    rewrite IH by exact Hw. by rewrite <- app_assoc.
Qed.

Lemma split_from_space cur s :
  cur ≠ [] -> split_from cur (py " " ++ s) = cur :: split_from [] s.
Proof. by destruct cur. Qed.

Lemma split_join_words (words : list pystr) :
  Forall is_word words -> split (join (py " ") words) = words.
Proof.
  unfold split. induction 1 as [|w words [Hne Hw] Hwords IH]; [reflexivity|].
  destruct words as [|w' words].
  - cbn [join]. rewrite <- (app_nil_r w), split_from_word by exact Hw.
    cbn [app split_from]. rewrite app_nil_r. by destruct w.
  - change (join (py " ") (w :: w' :: words))
      with (w ++ py " " ++ join (py " ") (w' :: words)).
    rewrite split_from_word by exact Hw. cbn [app].
    rewrite split_from_space by exact Hne. by rewrite IH.
Qed.

(** X5. Splitting undoes joining: words without whitespace, joined by
    single spaces, are the words [split] gives back. *)
Theorem split_join_round_trip (words : list pystr) :
  Forall is_word words -> split (join (py " ") words) = words.
Proof. apply split_join_words. Qed.

Lemma split_join_round_trip_witness :
  split (join (py " ") [py "ACME"; py "OIL"; py "CO."])
  = [py "ACME"; py "OIL"; py "CO."].
Proof.
  apply split_join_round_trip.
  repeat constructor; try discriminate.
Defined.

(** X6. The text of a cell is in normal form: it is made of words without
    whitespace, one space between two of them, nothing before the first
    and nothing after the last. Normalising it again changes nothing. *)
Theorem cell_text_is_normal (c : node) :
  Forall is_word (split (cell_text c))
  ∧ cell_text c = join (py " ") (split (cell_text c)).
Proof.
  assert (Hwords : ∀ s, Forall is_word (split s)).
  { intros s. apply split_from_words. constructor. }
  split; [apply Hwords|].
  unfold cell_text at 2. by rewrite split_join_words.
Qed.

(* ===================================================================== *)
(** ** The search session driver: more properties *)
(* ===================================================================== *)

Section SearchMore.

Variable json_loads : pystr -> pyresult pyval.
Variable env : search_env.

(** The walk over pages that lead on: their records are accumulated in
    the order of the pages. *)
Lemma page_walk_full_pages pages : ∀ fuel page_num all log,
  (∀ i records, pages !! i = Some records ->
                full_page json_loads env (page_num + i) records) ->
  page_walk json_loads env (length pages + fuel) page_num (all, log)
  = page_walk json_loads env fuel (page_num + length pages)
      (all ++ concat pages,
       log ++ concat (replicate (length pages) page_calls)).
Proof.
  induction pages as [|records pages IH]; intros fuel page_num all log Hfull.
  - cbn [length concat replicate Nat.add]. by rewrite Nat.add_0_r, !app_nil_r.
  - destruct (Hfull 0 records eq_refl)
      as (soup & n & Hcontent & Hparse & Hsome & Hcount & Hn & Hclick & Hsettle).
    rewrite Nat.add_0_r in *.
    cbn [length Nat.add page_walk].
    rewrite Hcontent, Hcount, Hclick, Hsettle. session_run. rewrite Hparse.
    destruct records as [|r records]; [done|].
    destruct (decide (0 < n)); [|lia].
    rewrite IH.
    + cbn [concat replicate fst snd]. unfold page_calls at 2.
      rewrite <- !app_assoc. cbn [app Nat.add]. rewrite Nat.add_succ_r.
      reflexivity.
    + intros i rs Hi. replace (S page_num + i) with (page_num + S i) by lia.
      by apply Hfull.
Qed.

Lemma submit_search_ok config from to all log :
  s_goto env = Ok tt -> s_select env = Ok tt -> s_fill_from env = Ok tt ->
  s_fill_to env = Ok tt -> s_submit env = Ok tt -> s_results env = Ok tt ->
  has_dates config from to ->
  submit_search env config (all, log)
  = Some (Ok tt,
          (all,
           log ++ [Goto RRC_URL 60000;
                   SelectOption county_select (selected_county_codes config);
                   Fill from_input from; Fill to_input to;
                   Click submit_button;
                   WaitForSelector (py "table.DataGrid")])).
Proof.
  intros Hgoto Hselect Hfrom Hto Hsubmit Hresults [Hf Ht].
  unfold submit_search, lookup_key.
  rewrite Hgoto, Hselect, Hfrom, Hto, Hsubmit, Hresults, Hf, Ht.
  session_run. by rewrite <- !app_assoc.
Qed.

Lemma last_page_ends_walk fuel page_num records all log :
  last_page json_loads env page_num records ->
  ∃ calls,
    page_walk json_loads env (S fuel) page_num (all, log)
    = Some (Ok tt, (all ++ records, log ++ calls))
    ∧ Forall (fun c => is_screenshot c = false) calls.
Proof.
  intros (soup & Hcontent & Hparse & Hend). cbn [page_walk].
  rewrite Hcontent. session_run. rewrite Hparse.
  destruct records as [|r records].
  - exists [Content]. rewrite app_nil_r. split; [done|by repeat constructor].
  - destruct Hend as [|Hcount]; [done|]. rewrite Hcount.
    destruct (decide (0 < 0)); [lia|].
    exists [Content; Count next_link]. cbn [fst snd].
    rewrite <- ?app_assoc. split; [done|by repeat constructor].
Qed.

Lemma replicate_page_calls_no_screenshot n :
  Forall (fun c => is_screenshot c = false) (concat (replicate n page_calls)).
Proof.
  induction n as [|n IH]; [constructor|].
  cbn [replicate concat]. apply Forall_app. split; [|exact IH].
  by repeat constructor.
Qed.

(** X7. When the browser opens and closes without exception, the result
    pages that show records and a next link are walked in their order, up
    to the first page that shows no record or no next link: the driver
    returns the records of all these pages, in the order of the pages, and
    takes no screenshot. *)
Theorem walk_collects_pages config from to pages last extra :
  selected_county_codes config ≠ [] ->
  search_opens env -> search_closes env ->
  has_dates config from to ->
  (∀ i records, pages !! i = Some records ->
                full_page json_loads env (1 + i) records) ->
  last_page json_loads env (1 + length pages) last ->
  ∃ log,
    scrape_permits json_loads env (length pages + S extra) config
    = Some (Ok (concat pages ++ last), (concat pages ++ last, log))
    ∧ Forall (fun c => is_screenshot c = false) log.
Proof.
  intros Hcodes (Hstart & Hlaunch & Hpage & Hgoto & Hselect & Hfrom & Hto
                 & Hsubmit & Hresults) (_ & Hclose & Hstop) Hdates Hfull Hlast.
  unfold scrape_permits.
  destruct (selected_county_codes config) as [|code codes] eqn:Hsel; [done|].
  destruct (last_page_ends_walk extra (1 + length pages) last
              ([] ++ concat pages)
              (search_calls config from to
               ++ concat (replicate (length pages) page_calls)) Hlast)
    as (calls & Hwalk & Hcalls).
  exists ((search_calls config from to
           ++ concat (replicate (length pages) page_calls) ++ calls)
          ++ [BrowserClose; PlaywrightStop]).
  split.
  - unfold search_session, session_steps. rewrite Hstart, Hlaunch, Hpage.
    rewrite Hclose, Hstop. session_run.
    rewrite (submit_search_ok config from to) by done.
    cbn [app]. fold (search_calls config from to).
    rewrite (page_walk_full_pages pages (S extra) 1 [] _ Hfull).
    rewrite Hwalk. cbn [fst snd app]. by rewrite <- !app_assoc.
  - repeat (apply Forall_app; split); try exact Hcalls;
      try apply replicate_page_calls_no_screenshot; by repeat constructor.
Qed.

(** X8. An exception of the parser on a result page ends the walk: the
    driver takes a screenshot and, when the screenshot, the close of the
    browser and the stop of Playwright go through, returns the records of
    the pages before, and no record of the page itself, not even of the
    rows above the one the parser raised on. *)
Theorem broken_page_ends_walk config from to pages e extra :
  selected_county_codes config ≠ [] ->
  search_opens env -> search_closes env ->
  has_dates config from to ->
  (∀ i records, pages !! i = Some records ->
                full_page json_loads env (1 + i) records) ->
  broken_page json_loads env (1 + length pages) e ->
  scrape_permits json_loads env (length pages + S extra) config
  = Some (Ok (concat pages),
          (concat pages,
           search_calls config from to
           ++ concat (replicate (length pages) page_calls)
           ++ [Content; Screenshot (py "error_screenshot.png");
               BrowserClose; PlaywrightStop])).
Proof.
  intros Hcodes (Hstart & Hlaunch & Hpage & Hgoto & Hselect & Hfrom & Hto
                 & Hsubmit & Hresults) (Hshot & Hclose & Hstop) Hdates Hfull
    (soup & Hcontent & Hparse).
  unfold scrape_permits.
  destruct (selected_county_codes config) as [|code codes] eqn:Hsel; [done|].
  unfold search_session, session_steps. rewrite Hstart, Hlaunch, Hpage.
  rewrite Hshot, Hclose, Hstop. session_run.
  rewrite (submit_search_ok config from to) by done.
  cbn [app]. fold (search_calls config from to).
  rewrite (page_walk_full_pages pages (S extra) 1 [] _ Hfull).
  rewrite (parser_failure_in_walk json_loads env extra _ soup e) by done.
  cbn [fst snd app]. by rewrite <- !app_assoc.
Qed.

(** X9. Once the browser is launched and its page open, every run that
    ends has closed the browser and stopped Playwright, whatever the site
    answered and whether the driver returns or raises: these are the last
    two calls. *)
Theorem browser_is_closed fuel config r all log :
  selected_county_codes config ≠ [] ->
  s_start env = Ok tt -> s_launch env = Ok tt -> s_new_page env = Ok tt ->
  scrape_permits json_loads env fuel config = Some (r, (all, log)) ->
  ∃ before, log = before ++ [BrowserClose; PlaywrightStop].
Proof.
  intros Hcodes Hstart Hlaunch Hpage. unfold scrape_permits.
  destruct (selected_county_codes config) as [|code codes]; [done|].
  unfold search_session.
  remember (session_steps json_loads env fuel config) as steps eqn:Hsteps.
  clear Hsteps. rewrite Hstart, Hlaunch, Hpage. session_run.
  destruct (steps _) as [[[[]|e] [all' log']]|]; [| |discriminate];
    destruct (s_screenshot env) as [[]|e1], (s_close env) as [[]|e2],
      (s_stop env) as [[]|e3]; session_run; intros [= <- <- <-];
    rewrite <- ?app_assoc; cbn [app];
    first [ by eexists
          | exists (log' ++ [Screenshot (py "error_screenshot.png")]);
            by rewrite <- app_assoc ].
Qed.

(** X10. A page that cannot be opened is not a session step: the exception
    reaches the caller, Playwright is stopped, and the browser that was
    launched is neither closed nor asked for a screenshot. *)
Theorem page_failure_leaves_browser_open fuel config e :
  selected_county_codes config ≠ [] ->
  s_start env = Ok tt -> s_launch env = Ok tt -> s_new_page env = Raise e ->
  scrape_permits json_loads env fuel config
  = Some (match s_stop env with Ok _ => Raise e | Raise e' => Raise e' end,
          ([], [PlaywrightStart; Launch true; NewPage; PlaywrightStop])).
Proof.
  intros Hcodes Hstart Hlaunch Hpage. unfold scrape_permits.
  destruct (selected_county_codes config) as [|code codes]; [done|].
  unfold search_session. rewrite Hstart, Hlaunch, Hpage. session_run.
  by destruct (s_stop env) as [[]|e'].
Qed.

(** X11. A configuration without the date [from] makes the lookup raise
    [KeyError] after the counties are selected; being raised inside the
    [try] it is caught like an exception of the browser: the form is not
    filled, a screenshot is taken and, when the screenshot, the close of
    the browser and the stop of Playwright go through, the driver returns
    the empty frame. *)
Theorem missing_date_is_caught fuel config :
  selected_county_codes config ≠ [] ->
  s_start env = Ok tt -> s_launch env = Ok tt -> s_new_page env = Ok tt ->
  s_goto env = Ok tt -> s_select env = Ok tt ->
  search_closes env ->
  date_range config !! py "from" = None ->
  scrape_permits json_loads env fuel config
  = Some (Ok [],
          ([], [PlaywrightStart; Launch true; NewPage; Goto RRC_URL 60000;
                SelectOption county_select (selected_county_codes config);
                Screenshot (py "error_screenshot.png"); BrowserClose;
                PlaywrightStop])).
Proof.
  intros Hcodes Hstart Hlaunch Hpage Hgoto Hselect (Hshot & Hclose & Hstop)
    Hfrom.
  unfold scrape_permits.
  destruct (selected_county_codes config) as [|code codes] eqn:Hsel; [done|].
  unfold search_session, session_steps, submit_search, lookup_key.
  rewrite Hstart, Hlaunch, Hpage, Hgoto, Hselect, Hshot, Hclose, Hstop, Hfrom.
  rewrite Hsel. by session_run.
Qed.

End SearchMore.

Lemma walk_collects_pages_witness :
  ∃ log,
    scrape_permits Json.loads Sample.two_page_site 2 Sample.andrews
    = Some (Ok [More.plain_record; More.howard_record],
            ([More.plain_record; More.howard_record], log))
    ∧ Forall (fun c => is_screenshot c = false) log.
Proof.
  apply (walk_collects_pages Json.loads Sample.two_page_site Sample.andrews
           (py "01/01/2024") (py "01/31/2024")
           [[More.plain_record; More.howard_record]] [] 0).
  - vm_compute. discriminate.
  - repeat split.
  - repeat split.
  - split; reflexivity.
  - intros [|i] records Hi; [|destruct i; discriminate].
    simpl in Hi. apply (inj Some) in Hi. subst records. eexists _, 1.
    repeat split; try reflexivity; try discriminate; lia.
  - eexists. split; [reflexivity|]. split; [vm_compute; reflexivity|by left].
Defined.

Lemma broken_page_ends_walk_witness :
  scrape_permits Json.loads More.endless_site 3 Sample.andrews
  = Some (Ok [More.plain_record; More.plain_record],
          ([More.plain_record; More.plain_record],
           search_calls Sample.andrews (py "01/01/2024") (py "01/31/2024")
           ++ page_calls ++ page_calls
           ++ [Content; Screenshot (py "error_screenshot.png");
               BrowserClose; PlaywrightStop])).
Proof.
  apply (broken_page_ends_walk Json.loads More.endless_site Sample.andrews
           (py "01/01/2024") (py "01/31/2024")
           [[More.plain_record]; [More.plain_record]] IndexError 0).
  - vm_compute. discriminate.
  - repeat split.
  - repeat split.
  - split; reflexivity.
  - intros [|[|i]] records Hi; [| |destruct i; discriminate];
      simpl in Hi; apply (inj Some) in Hi; subst records; eexists _, 1;
      repeat split;
      try reflexivity;
      try (vm_compute; reflexivity); try discriminate; lia.
  - eexists. split; [reflexivity|]. vm_compute. reflexivity.
Defined.

Lemma browser_is_closed_witness :
  match scrape_permits Json.loads Sample.dead_site 3 Sample.andrews with
  | Some (_, (_, log)) => ∃ before, log = before ++ [BrowserClose; PlaywrightStop]
  | None => False
  end.
Proof.
  destruct (scrape_permits Json.loads Sample.dead_site 3 Sample.andrews)
    as [[r [all log]]|] eqn:Hrun.
  - eapply (browser_is_closed Json.loads Sample.dead_site 3 Sample.andrews);
      [vm_compute; discriminate|reflexivity|reflexivity|reflexivity|].
    exact Hrun.
  - vm_compute in Hrun. discriminate.
Defined.

Lemma page_failure_leaves_browser_open_witness :
  scrape_permits Json.loads More.pageless_site 3 Sample.andrews
  = Some (Raise Sample.closed,
          ([], [PlaywrightStart; Launch true; NewPage; PlaywrightStop])).
Proof.
  apply (page_failure_leaves_browser_open Json.loads More.pageless_site 3
           Sample.andrews Sample.closed).
  - vm_compute. discriminate.
  - reflexivity.
  - reflexivity.
  - reflexivity.
Defined.

Lemma missing_date_is_caught_witness :
  scrape_permits Json.loads Sample.site 3 More.undated
  = Some (Ok [],
          ([], [PlaywrightStart; Launch true; NewPage; Goto RRC_URL 60000;
                SelectOption county_select [py "003"];
                Screenshot (py "error_screenshot.png"); BrowserClose;
                PlaywrightStop])).
Proof.
  apply (missing_date_is_caught Json.loads Sample.site 3 More.undated).
  - vm_compute. discriminate.
  - reflexivity.
  - reflexivity.
  - reflexivity.
  - reflexivity.
  - reflexivity.
  - repeat split.
  - vm_compute. reflexivity.
Defined.

(* ===================================================================== *)
(** ** The plat retrieval orchestrator: more properties *)
(* ===================================================================== *)

(** X12. A record without link or without API number costs no call at
    all, neither to the browser nor to the filesystem: the empty path is
    its outcome and the loop goes on with the next record. *)
Theorem record_without_link_is_skipped (env : retrieval_env) (i : nat)
    (row : row) rest paths log :
  truthy (row !! py "PlatLink") = false
  ∨ truthy (row !! py "API NO.") = false ->
  records_loop env i (row :: rest) (paths, log)
  = records_loop env (S i) rest (paths ++ [[]], log).
Proof.
  intros Hmissing. cbn [records_loop]. unfold visit_record.
  assert (negb (truthy (row !! py "PlatLink"))
          || negb (truthy (row !! py "API NO.")) = true) as ->.
  { destruct Hmissing as [-> | ->]; [reflexivity|apply orb_true_r]. }
  unfold append. by session_run.
Qed.

Lemma record_without_link_is_skipped_witness :
  records_loop (Sample.browser (fun _ => Sample.on_disk)) 0
    [More.linkless; Sample.ector_2] ([], [])
  = Some (Ok tt,
          ([[]; py "data/plat_files/ECTOR/42-135-2.tif"],
           [MakeDirs (py "data/plat_files/ECTOR");
            PathExists (py "data/plat_files/ECTOR/42-135-2.tif")])).
Proof.
  rewrite record_without_link_is_skipped by (left; reflexivity).
  vm_compute. reflexivity.
Defined.

Lemma filter_save_subdocs county api_no numbers :
  List.filter is_save (flat_map (subdoc_calls county api_no) numbers)
  = List.map (fun record_num => SaveAs (saved_path county api_no record_num))
             numbers.
Proof.
  induction numbers as [|n numbers IH]; [reflexivity|].
  cbn [flat_map List.map]. rewrite List.filter_app, IH. reflexivity.
Qed.

(** X13. When every download of a record succeeds, one file is saved for
    each record number the page shows, in the order of the record numbers,
    each under the API number, an underscore and its record number; the
    visit writes nothing else. *)
Theorem documents_are_saved_in_order (v : visit) (row : row) plat_link api_no
    numbers paths log :
  has_link row plat_link api_no ->
  succeeds v numbers ->
  ∃ log',
    visit_record v row (paths, log) = Some (Ok tt, (paths, log'))
    ∧ List.filter is_save log'
      = List.filter is_save log
        ++ List.map (fun record_num =>
                       SaveAs (saved_path (county_of row) api_no record_num))
                    numbers.
Proof.
  intros Hrow Hv. eexists. split.
  - by apply visit_record_success.
  - rewrite !List.filter_app, filter_save_subdocs. reflexivity.
Qed.

Lemma documents_are_saved_in_order_witness :
  ∃ log',
    visit_record (Sample.viewer [py "7"; py "3"]) Sample.andrews_1 ([], [])
    = Some (Ok tt, ([], log'))
    ∧ List.filter is_save log'
      = [SaveAs (py "data/plat_files/ANDREWS/42-003-1_7.tif");
         SaveAs (py "data/plat_files/ANDREWS/42-003-1_3.tif")].
Proof.
  apply (documents_are_saved_in_order (Sample.viewer [py "7"; py "3"])
           Sample.andrews_1 (py "http://d/1") (py "42-003-1")
           [py "7"; py "3"] [] []).
  - repeat split; try reflexivity; vm_compute; discriminate.
  - repeat split.
Defined.

Lemma subdocs_loop_prefix v county api_no done : ∀ j more paths log,
  (∀ j' step, j' < length done -> sub_r v (j + j') step = Ok tt) ->
  subdocs_loop v county api_no j (done ++ more) (paths, log)
  = subdocs_loop v county api_no (j + length done) more
      (paths, log ++ flat_map (subdoc_calls county api_no) done).
Proof.
  induction done as [|n done IH]; intros j more paths log Hok.
  - cbn [app length flat_map]. by rewrite Nat.add_0_r, app_nil_r.
  - cbn [app subdocs_loop].
    assert (Hj : ∀ step, sub_r v j step = Ok tt).
    { intros step. rewrite <- (Nat.add_0_r j). apply Hok. cbn [length]. lia. }
    rewrite !Hj. session_run. rewrite IH.
    + cbn [flat_map length]. unfold subdoc_calls at 2.
      rewrite <- !app_assoc, Nat.add_succ_r. reflexivity.
    + intros j' step Hj'. replace (S j + j') with (j + S j') by lia.
      apply Hok. cbn [length]. lia.
Qed.

(** X14. When a step of a sub-document raises, the files of the
    sub-documents before it stay saved, the sub-documents after it are not
    asked for, and the outcome of the record is the empty path. *)
Theorem failed_subdocument_keeps_earlier_files (v : visit) (row : row)
    plat_link api_no done record_num rest step e paths log :
  has_link row plat_link api_no ->
  makedirs_r v = Ok tt -> exists_r v = false ->
  goto_r v = Ok tt -> action_menu_r v = Ok tt ->
  record_numbers_r v = Ok (done ++ record_num :: rest) ->
  (∀ j earlier, j < length done -> sub_r v j earlier = Ok tt) ->
  (∀ earlier, step_index earlier < step_index step ->
              sub_r v (length done) earlier = Ok tt) ->
  sub_r v (length done) step = Raise e ->
  visit_record v row (paths, log)
  = Some (Ok tt,
          (paths ++ [[]],
           log ++ [MakeDirs (download_dir_of (county_of row));
                   PathExists (target_path (county_of row) api_no)]
               ++ open_calls plat_link
               ++ flat_map (subdoc_calls (county_of row) api_no) done
               ++ take (S (step_index step))
                       (subdoc_calls (county_of row) api_no record_num))).
Proof.
  intros Hrow Hdirs Hexists Hgoto Hmenu Hnumbers Hdone Hearlier Hstep.
  rewrite (visit_record_linked _ _ _ _ Hrow). unfold fetch, append.
  rewrite Hdirs, Hexists, Hgoto, Hmenu, Hnumbers. session_run.
  rewrite subdocs_loop_prefix by (intros; by apply Hdone).
  cbn [Nat.add subdocs_loop].
  destruct step; rewrite Hstep;
    repeat match goal with
           | |- context [sub_r v (length done) ?s] =>
               rewrite (Hearlier s) by (cbn [step_index]; lia)
           end;
    session_run; cbn [step_index take subdoc_calls];
    rewrite <- ?app_assoc; reflexivity.
Qed.

Lemma failed_subdocument_keeps_earlier_files_witness :
  ∃ log,
    visit_record More.half_viewer Sample.andrews_1 ([], [])
    = Some (Ok tt, ([[]], log))
    ∧ List.filter is_save log
      = [SaveAs (py "data/plat_files/ANDREWS/42-003-1_1.tif");
         SaveAs (py "data/plat_files/ANDREWS/42-003-1_2.tif")].
Proof.
  eexists. split.
  - apply (failed_subdocument_keeps_earlier_files More.half_viewer
             Sample.andrews_1 (py "http://d/1") (py "42-003-1") [py "1"]
             (py "2") [] Saved (Error (py "OSError")) [] []);
      try reflexivity.
    + repeat split; try reflexivity; vm_compute; discriminate.
    + intros [|j] earlier Hj; [reflexivity|cbn [length] in Hj; lia].
    + intros earlier Hearlier. by destruct earlier; cbn in Hearlier; try lia.
  - vm_compute. reflexivity.
Defined.

(** X15. The directory of a record is made outside the [try]: when that
    of the first record of the frame, a record with a link and an API
    number, cannot be made, the exception ends the batch. The records
    after it are not visited, the browser is not closed, and only
    Playwright is stopped. *)
Theorem makedirs_failure_aborts_batch (env : retrieval_env) (row : row) rest
    plat_link api_no e :
  browser_works env ->
  has_link row plat_link api_no ->
  makedirs_r (r_visits env 0) = Raise e ->
  download_plat_files env (row :: rest)
  = Some (Raise e,
          ([], [PlaywrightStart; Launch false; NewContext; NewPage;
                MakeDirs (download_dir_of (county_of row));
                PlaywrightStop])).
Proof.
  intros Henv Hrow Hdirs. rewrite download_run by exact Henv.
  cbn [records_loop]. rewrite (visit_record_linked _ _ _ _ Hrow), Hdirs.
  by session_run.
Qed.

Lemma makedirs_failure_aborts_batch_witness :
  download_plat_files (Sample.browser (fun _ => More.read_only))
                      [Sample.andrews_1; Sample.ector_2]
  = Some (Raise (Error (py "PermissionError")),
          ([], [PlaywrightStart; Launch false; NewContext; NewPage;
                MakeDirs (py "data/plat_files/ANDREWS"); PlaywrightStop])).
Proof.
  apply (makedirs_failure_aborts_batch
           (Sample.browser (fun _ => More.read_only)) Sample.andrews_1
           [Sample.ector_2] (py "http://d/1") (py "42-003-1")).
  - repeat split.
  - repeat split; try reflexivity; vm_compute; discriminate.
  - reflexivity.
Defined.

(** The sub-documents end, with or without exception; they leave
    [plat_file_paths] as it is and call the browser only. *)
Lemma subdocs_loop_trace v county api_no numbers : ∀ j paths log,
  ∃ r calls,
    subdocs_loop v county api_no j numbers (paths, log)
    = Some (r, (paths, log ++ calls))
    ∧ Forall (fun c => is_session_call c = true) calls.
Proof.
  induction numbers as [|n numbers IH]; intros j paths log.
  - exists (Ok tt), []. rewrite app_nil_r. split; [reflexivity|constructor].
  - cbn [subdocs_loop]. session_run.
    repeat match goal with
           | |- context [sub_r v j ?s] =>
               destruct (sub_r v j s) as [[]|?];
               [|eexists _, _; split;
                 [rewrite <- ?app_assoc; cbn [app]; reflexivity
                 |by repeat constructor]]
           end.
    match goal with
    | |- context [subdocs_loop _ _ _ _ _ (paths, ?l)] =>
        destruct (IH (S j) paths l) as (r & calls & Hrun & Hcalls)
    end.
    rewrite Hrun. exists r, (subdoc_calls county api_no n ++ calls). split.
    + unfold subdoc_calls. rewrite <- ?app_assoc. cbn [app]. reflexivity.
    + apply Forall_app. split; [by repeat constructor|exact Hcalls].
Qed.

Lemma fetch_trace v plat_link county api_no paths log :
  ∃ r calls,
    fetch v plat_link county api_no (paths, log)
    = Some (r, (paths, log ++ calls))
    ∧ Forall (fun c => is_session_call c = true) calls.
Proof.
  unfold fetch. session_run.
  destruct (goto_r v) as [[]|?];
    [|eexists _, _; split; [reflexivity|by repeat constructor]].
  destruct (action_menu_r v) as [[]|?];
    [|eexists _, _; split;
      [rewrite <- ?app_assoc; cbn [app]; reflexivity|by repeat constructor]].
  destruct (record_numbers_r v) as [numbers|?];
    [|eexists _, _; split;
      [rewrite <- ?app_assoc; cbn [app]; reflexivity|by repeat constructor]].
  match goal with
  | |- context [subdocs_loop _ _ _ _ _ (paths, ?l)] =>
      destruct (subdocs_loop_trace v county api_no numbers 0 paths l)
        as (r & calls & Hrun & Hcalls)
  end.
  rewrite Hrun. exists r, (open_calls plat_link ++ calls). split.
  - unfold open_calls. rewrite <- ?app_assoc. cbn [app]. reflexivity.
  - apply Forall_app. split; [by repeat constructor|exact Hcalls].
Qed.

Lemma filter_fs_session_calls (calls : list call) :
  Forall (fun c => is_session_call c = true) calls ->
  List.filter is_fs_call calls = [].
Proof.
  induction 1 as [|c calls Hc _ IH]; [reflexivity|].
  cbn [List.filter]. unfold is_fs_call at 1. by rewrite Hc.
Qed.

(** A visit ends; it raises only when the directory cannot be made, it
    appends at most one path, an outcome of the row, and the calls it
    makes to the filesystem are those of lines 171-176. *)
Lemma visit_record_ends (v : visit) (row : row) paths log :
  ∃ r paths' calls,
    visit_record v row (paths, log) = Some (r, (paths', log ++ calls))
    ∧ (makedirs_r v = Ok tt ->
       r = Ok tt ∧ List.filter is_fs_call calls = fs_calls_of row)
    ∧ (paths' = paths ∨ ∃ path, paths' = paths ++ [path] ∧ outcome_of row path).
Proof.
  unfold visit_record, outcome_of, append, fs_calls_of, linked, county_of.
  rewrite <- negb_andb.
  destruct (truthy (row !! py "PlatLink") && truthy (row !! py "API NO."))
    eqn:Hlink; cbn [negb].
  - apply andb_prop in Hlink as [_ Hapi].
    destruct (row !! py "API NO.") as [api_no|] eqn:Hrow; [|discriminate].
    session_run. destruct (makedirs_r v) as [[]|e].
    + destruct (exists_r v).
      * eexists _, _, _. split; [by rewrite <- app_assoc|].
        split; [done|]. right. eexists. split; [reflexivity|]. right. eauto.
      * match goal with
        | |- context [fetch v ?l ?c ?a (paths, ?lg)] =>
            destruct (fetch_trace v l c a paths lg)
              as (r & calls & Hfetch & Hcalls)
        end.
        unfold except. rewrite Hfetch. destruct r as [[]|e].
        -- eexists _, _, _. split; [by rewrite <- !app_assoc|].
           split; [|by left]. intros _. split; [done|].
           cbn [app List.filter is_fs_call is_session_call negb].
           by rewrite filter_fs_session_calls.
        -- session_run. eexists _, _, _.
           split; [by rewrite <- !app_assoc|].
           split; [|right; eauto]. intros _. split; [done|].
           cbn [app List.filter is_fs_call is_session_call negb].
           by rewrite filter_fs_session_calls.
    + eexists _, _, [_]. split; [reflexivity|]. split; [done|by left].
  - session_run. exists (Ok tt), (paths ++ [[]]), []. rewrite app_nil_r.
    split; [reflexivity|]. split; [done|]. right. eauto.
Qed.




(** The outcomes of the loop: the records visited are the first ones of
    the frame; each has appended nothing or one outcome of its own. *)
Lemma records_loop_outcomes env df : ∀ i paths log r paths' log',
  records_loop env i df (paths, log) = Some (r, (paths', log')) ->
  ∃ outcomes : list (option pystr),
    length outcomes ≤ length df
    ∧ paths' = paths ++ omap id outcomes
    ∧ Forall2 (fun (row : gmap pystr pystr) outcome =>
                 ∀ path, outcome = Some path -> outcome_of row path)
              (take (length outcomes) df) outcomes.
Proof.
  induction df as [|row df IH]; intros i paths log r paths' log'.
  - intros [= <- <- <-]. exists []. rewrite app_nil_r.
    split; [done|]. split; [done|constructor].
  - cbn [records_loop]. unfold mbind, session_bind.
    destruct (visit_record_ends (r_visits env i) row paths log)
      as (r1 & paths1 & calls1 & Hvisit & _ & Hpaths).
    rewrite Hvisit.
    assert (Hone : ∃ outcome : option pystr,
               paths1 = paths ++ omap id [outcome]
               ∧ ∀ path, outcome = Some path -> outcome_of row path).
    { destruct Hpaths as [-> | (path & -> & Hpath)].
      - exists None. rewrite app_nil_r. split; [done|]. discriminate.
      - exists (Some path). split; [done|]. by intros ? [= <-]. }
    destruct Hone as (outcome & -> & Houtcome).
    destruct r1 as [[]|e].
    + intros Hloop. apply IH in Hloop
        as (outcomes & Hlen & -> & Hall).
      exists (outcome :: outcomes). split; [cbn [length]; lia|].
      split.
      * rewrite <- app_assoc. f_equal. by destruct outcome.
      * cbn [length take]. by constructor.
    + intros [= <- <- <-]. exists [outcome]. split; [cbn [length]; lia|].
      split; [done|]. cbn [length take]. rewrite take_0.
      constructor; [done|constructor].
Qed.

(** The paths a run leaves are those of its loop, or none when the loop
    was not reached. *)
Lemma download_paths env df r paths log :
  download_plat_files env df = Some (r, (paths, log)) ->
  paths = []
  ∨ ∃ r' log',
      records_loop env 0 df
        ([], [PlaywrightStart; Launch false; NewContext; NewPage])
      = Some (r', (paths, log')).
Proof.
  unfold download_plat_files, retrieval_session.
  remember (records_loop env 0 df) as loop eqn:Hloop. clear Hloop.
  session_run.
  destruct (r_start env) as [[]|?]; [|intros [= <- <- <-]; by left].
  destruct (r_launch env) as [[]|?];
    [|destruct (r_stop env) as [[]|?]; intros [= <- <- <-]; by left].
  destruct (r_context env) as [[]|?];
    [|destruct (r_stop env) as [[]|?]; intros [= <- <- <-]; by left].
  destruct (r_page env) as [[]|?];
    [|destruct (r_stop env) as [[]|?]; intros [= <- <- <-]; by left].
  cbn [app].
  destruct (loop _) as [[[[]|e] [paths' log']]|] eqn:Hrun; [| |discriminate].
  - destruct (r_close env) as [[]|?], (r_stop env) as [[]|?]; session_run;
      try destruct (set_column _ _ _); intros [= <- <- <-]; right; eauto.
  - destruct (r_stop env) as [[]|?]; session_run; intros [= <- <- <-];
      right; eauto.
Qed.

(** The loop over the records ends, whatever the answers. *)
Lemma records_loop_total env df : ∀ i paths log,
  ∃ r paths' log',
    records_loop env i df (paths, log) = Some (r, (paths', log')).
Proof.
  induction df as [|row df IH]; intros i paths log; [by eexists _, _, _|].
  cbn [records_loop]. unfold mbind, session_bind.
  destruct (visit_record_ends (r_visits env i) row paths log)
    as (r1 & paths1 & calls1 & -> & _).
  destruct r1 as [[]|e]; [apply IH|by eexists _, _, _].
Qed.

(** The orchestrator ends, whatever the answers. *)
Lemma download_plat_files_ends env df :
  ∃ r paths log, download_plat_files env df = Some (r, (paths, log)).
Proof.
  unfold download_plat_files, retrieval_session.
  pose proof (records_loop_total env df 0) as Hloop.
  remember (records_loop env 0 df) as loop eqn:Heq. clear Heq.
  session_run.
  destruct (r_start env) as [[]|?]; [|by eexists _, _, _].
  destruct (r_launch env) as [[]|?];
    [|destruct (r_stop env) as [[]|?]; by eexists _, _, _].
  destruct (r_context env) as [[]|?];
    [|destruct (r_stop env) as [[]|?]; by eexists _, _, _].
  destruct (r_page env) as [[]|?];
    [|destruct (r_stop env) as [[]|?]; by eexists _, _, _].
  cbn [app].
  match goal with
  | |- context [loop (?paths, ?log)] =>
      destruct (Hloop paths log) as (r' & paths' & log' & ->)
  end.
  destruct r' as [[]|e].
  - destruct (r_close env) as [[]|?], (r_stop env) as [[]|?]; session_run;
      try destruct (set_column _ _ _); by eexists _, _, _.
  - destruct (r_stop env) as [[]|?]; session_run; by eexists _, _, _.
Qed.

(** X17. For a frame whose rows share their columns, and whatever the
    browser and the filesystem answer, the run ends, with or without
    exception, and it has visited the first records of the frame, in
    their order: each of them has contributed no outcome or one outcome to
    the list, and that outcome is the empty path or the path tested for
    that very record. *)
Theorem outcomes_are_empty_or_tested (env : retrieval_env) (df : list row) :
  uniform df ->
  ∃ r paths log (outcomes : list (option pystr)),
    download_plat_files env df = Some (r, (paths, log))
    ∧ length outcomes ≤ length df
    ∧ paths = omap id outcomes
    ∧ Forall2 (fun (row : gmap pystr pystr) outcome =>
                 ∀ path, outcome = Some path -> outcome_of row path)
              (take (length outcomes) df) outcomes.
Proof.
  intros _. destruct (download_plat_files_ends env df)
    as (r & paths & log & Hrun).
  exists r, paths, log.
  destruct (download_paths _ _ _ _ _ Hrun) as [-> | (r' & log' & Hloop)].
  - exists []. split; [exact Hrun|]. split; [cbn [length]; lia|].
    split; [done|constructor].
  - apply records_loop_outcomes in Hloop as (outcomes & Hlen & Hpaths & Hall).
    exists outcomes. by rewrite app_nil_l in Hpaths.
Qed.

Lemma outcomes_are_empty_or_tested_witness :
  ∃ r paths log (outcomes : list (option pystr)),
    download_plat_files More.mixed_browser [Sample.andrews_1; Sample.ector_2]
    = Some (r, (paths, log))
    ∧ length outcomes ≤ 2
    ∧ paths = omap id outcomes
    ∧ Forall2 (fun (row : gmap pystr pystr) outcome =>
                 ∀ path, outcome = Some path -> outcome_of row path)
              (take (length outcomes)
                    [Sample.andrews_1; Sample.ector_2]) outcomes.
Proof.
  apply (outcomes_are_empty_or_tested More.mixed_browser
           [Sample.andrews_1; Sample.ector_2]).
  intros r1 r2 H1 H2.
  apply list_elem_of_In in H1, H2. cbn [In] in H1, H2.
  destruct H1 as [<-|[<-|[]]], H2 as [<-|[<-|[]]];
    apply (bool_decide_unpack _); vm_compute; exact I.
Defined.

(** X18. The frame that comes back has the rows of the input, in their
    order, each with the column [PlatFilePath] set to its outcome and its
    other columns as they were. *)
Theorem returned_frame_keeps_rows (env : retrieval_env) (df : list row)
    frame paths log :
  download_plat_files env df = Some (Ok frame, (paths, log)) ->
  length paths = length df
  ∧ frame = zip_with (fun row path => <[py "PlatFilePath" := path]> row)
                     df paths
  ∧ ∀ i row key, df !! i = Some row -> key ≠ py "PlatFilePath" ->
                 ∃ row', frame !! i = Some row' ∧ row' !! key = row !! key.
Proof.
  unfold download_plat_files, retrieval_session.
  match goal with
  | |- context [finally ?body ?cleanup] =>
      remember (finally body cleanup) as inner eqn:Hinner
  end.
  clear Hinner. session_run.
  destruct (r_start env) as [[]|e]; [|discriminate].
  destruct (inner _) as [[[[]|e] [paths' log']]|]; [|discriminate..].
  cbn [fst snd]. unfold set_column.
  destruct (decide (length paths' = length df)) as [Hlen|]; [|discriminate].
  intros [= <- <- <-]. split; [exact Hlen|]. split; [reflexivity|].
  intros i row key Hrow Hkey.
  destruct (lookup_lt_is_Some_2 paths' i) as [path Hpath].
  { rewrite Hlen. by eapply lookup_lt_Some. }
  eexists. split.
  - rewrite lookup_zip_with, Hrow. cbn. rewrite Hpath. reflexivity.
  - by apply lookup_insert_ne.
Qed.

Lemma returned_frame_keeps_rows_witness :
  match download_plat_files (Sample.browser (fun _ => Sample.on_disk))
                            [Sample.andrews_1; Sample.ector_2] with
  | Some (Ok frame, (paths, _)) =>
      length paths = 2
      ∧ frame = zip_with (fun row path => <[py "PlatFilePath" := path]> row)
                         [Sample.andrews_1; Sample.ector_2] paths
      ∧ ∀ i row key,
          [Sample.andrews_1; Sample.ector_2] !! i = Some row ->
          key ≠ py "PlatFilePath" ->
          ∃ row', frame !! i = Some row' ∧ row' !! key = row !! key
  | _ => False
  end.
Proof.
  destruct (download_plat_files _ _) as [[[frame|e] [paths log]]|] eqn:Hrun.
  - by apply (returned_frame_keeps_rows
                (Sample.browser (fun _ => Sample.on_disk))
                [Sample.andrews_1; Sample.ector_2] frame paths log).
  - vm_compute in Hrun. discriminate.
  - vm_compute in Hrun. discriminate.
Defined.

(** X19. The layout of the files: for a county name that is not empty and
    has no separator at either end, and an API number that does not start
    with one, the file of a record number is written at
    data/plat_files/<county>/<apiNumber>_<recordNumber>.tif. *)
Theorem saved_path_layout county api_no record_num :
  county ≠ [] ->
  startswith (py "/") county = false -> endswith_sep county = false ->
  startswith (py "/") api_no = false ->
  saved_path county api_no record_num
  = py "data/plat_files/" ++ county ++ py "/" ++ api_no ++ py "_"
    ++ record_num ++ py ".tif".
Proof. apply saved_path_plain. Qed.

Lemma saved_path_layout_witness :
  saved_path (py "UnknownCounty") (py "42-003-1") (py "2")
  = py "data/plat_files/UnknownCounty/42-003-1_2.tif".
Proof.
  rewrite saved_path_layout; [reflexivity|discriminate|reflexivity..].
Defined.

(* ===================================================================== *)
(** ** The job runner and the file endpoints: properties *)
(* ===================================================================== *)

Lemma set_field_registered (job_id key : pystr) (v : jobval)
    (jobs : gmap pystr (gmap pystr jobval)) (fields : gmap pystr jobval) :
  jobs !! job_id = Some fields ->
  set_field job_id key v jobs = Ok (<[job_id := <[key := v]> fields]> jobs).
Proof. intros Hjob. unfold set_field. by rewrite Hjob. Qed.

Lemma job_failed_registered (job_id : pystr) (e : exn)
    (jobs : gmap pystr (gmap pystr jobval)) (fields : gmap pystr jobval) :
  jobs !! job_id = Some fields ->
  job_failed job_id e jobs
  = Ok (<[job_id := <[py "error" := JError e]>
                      (<[py "status" := JStr (py "failed")]> fields)]> jobs).
Proof.
  intros Hjob. unfold job_failed.
  rewrite (set_field_registered _ _ _ _ _ Hjob), bind_ok.
  rewrite (set_field_registered _ _ _ _ _ (lookup_insert_eq _ _ _)).
  by rewrite insert_insert_eq.
Qed.

(** X20. The task of a registered job does not raise, whatever the search
    and the retrieval do: every exception of theirs is caught. When the
    task ends the job is never left running: its status is completed,
    completed_with_no_data or failed, the status endpoint answers with the
    job, and the other jobs of the registry are as they were. *)
Theorem task_ends_in_final_status (scraped : option (pyresult (list row)))
    (env : retrieval_env) (to_csv_r : pyresult unit) (job_id : pystr)
    (jobs : gmap pystr (gmap pystr jobval)) (fields : gmap pystr jobval)
    (r : pyresult (gmap pystr (gmap pystr jobval))) :
  jobs !! job_id = Some fields ->
  scrape_and_save_task scraped env to_csv_r job_id jobs = Some r ->
  ∃ jobs' fields' status,
    r = Ok jobs'
    ∧ jobs' !! job_id = Some fields'
    ∧ fields' !! py "status" = Some (JStr status)
    ∧ status ∈ final_statuses
    ∧ get_job_status jobs' job_id = Reply fields'
    ∧ ∀ other, other ≠ job_id -> jobs' !! other = jobs !! other.
Proof.
  intros Hjob. unfold scrape_and_save_task.
  rewrite (set_field_registered _ _ _ _ _ Hjob).
  set (running := <[job_id := _]> jobs).
  assert (Hrunning : running !! job_id
                     = Some (<[py "status" := JStr (py "running")]> fields))
    by apply lookup_insert_eq.
  assert (Hfailed : ∀ e r,
    Some (job_failed job_id e running) = Some r ->
    ∃ jobs' fields' status,
      r = Ok jobs' ∧ jobs' !! job_id = Some fields'
      ∧ fields' !! py "status" = Some (JStr status)
      ∧ status ∈ final_statuses
      ∧ get_job_status jobs' job_id = Reply fields'
      ∧ ∀ other, other ≠ job_id -> jobs' !! other = jobs !! other).
  { intros e r0. rewrite (job_failed_registered _ _ _ _ Hrunning).
    intros [= <-]. eexists _, _, (py "failed").
    split; [reflexivity|]. split; [apply lookup_insert_eq|].
    split; [by rewrite lookup_insert_ne, lookup_insert_eq|].
    split; [by do 2 right; left|].
    split.
    - unfold get_job_status. rewrite lookup_insert_eq.
      destruct (decide _) as [Hempty|]; [|done].
      apply (f_equal (fun m => m !! py "error")) in Hempty.
      by rewrite lookup_insert_eq in Hempty.
    - intros other Hother. unfold running.
      by rewrite !lookup_insert_ne. }
  assert (Hset : ∀ status r,
    status ∈ final_statuses ->
    Some (set_field job_id (py "status") (JStr status) running) = Some r ->
    ∃ jobs' fields' status,
      r = Ok jobs' ∧ jobs' !! job_id = Some fields'
      ∧ fields' !! py "status" = Some (JStr status)
      ∧ status ∈ final_statuses
      ∧ get_job_status jobs' job_id = Reply fields'
      ∧ ∀ other, other ≠ job_id -> jobs' !! other = jobs !! other).
  { intros status r0 Hstatus.
    rewrite (set_field_registered _ _ _ _ _ Hrunning). intros [= <-].
    eexists _, _, status. split; [reflexivity|].
    split; [apply lookup_insert_eq|]. split; [apply lookup_insert_eq|].
    split; [exact Hstatus|]. split.
    - unfold get_job_status. rewrite lookup_insert_eq.
      destruct (decide _) as [Hempty|]; [|done].
      apply (f_equal (fun m => m !! py "status")) in Hempty.
      by rewrite lookup_insert_eq in Hempty.
    - intros other Hother. unfold running.
      by rewrite !lookup_insert_ne. }
  destruct scraped as [[df|e]|]; [|by apply Hfailed|discriminate].
  destruct df as [|row df]; [apply Hset; by right; left|].
  destruct (download_plat_files env (row :: df)) as [[[frame|e] st]|];
    [|by apply Hfailed|discriminate].
  destruct to_csv_r as [[]|e]; [|by apply Hfailed].
  rewrite (set_field_registered _ _ _ _ _ Hrunning), bind_ok.
  rewrite (set_field_registered _ _ _ _ _ (lookup_insert_eq _ _ _)).
  intros [= <-]. eexists _, _, (py "completed").
  split; [reflexivity|]. split; [apply lookup_insert_eq|].
  split; [by rewrite lookup_insert_ne, lookup_insert_eq|].
  split; [by left|]. split.
  - unfold get_job_status. rewrite lookup_insert_eq.
    destruct (decide _) as [Hempty|]; [|done].
    apply (f_equal (fun m => m !! py "result_file")) in Hempty.
    by rewrite lookup_insert_eq in Hempty.
  - intros other Hother. unfold running. by rewrite !lookup_insert_ne.
Qed.

Lemma task_ends_in_final_status_witness :
  match scrape_and_save_task (Some (Ok [Sample.andrews_1; Sample.ector_2]))
          (Sample.browser (fun _ => Sample.on_disk)) (Ok tt) (py "job-1")
          More.pending with
  | Some r =>
      ∃ jobs' fields' status,
        r = Ok jobs'
        ∧ jobs' !! py "job-1" = Some fields'
        ∧ fields' !! py "status" = Some (JStr status)
        ∧ status ∈ final_statuses
        ∧ get_job_status jobs' (py "job-1") = Reply fields'
        ∧ ∀ other, other ≠ py "job-1" ->
                   jobs' !! other = More.pending !! other
  | None => False
  end.
Proof.
  destruct (scrape_and_save_task _ _ _ _ _) as [r|] eqn:Hrun.
  - apply (task_ends_in_final_status
             (Some (Ok [Sample.andrews_1; Sample.ector_2]))
             (Sample.browser (fun _ => Sample.on_disk)) (Ok tt) (py "job-1")
             More.pending More.pending_fields r); [|exact Hrun].
    vm_compute. reflexivity.
  - vm_compute in Hrun. discriminate.
Defined.

(** X21. A job whose search found one record, all of whose downloads
    succeed, ends failed: the retrieval raises the [ValueError] of its
    column assignment, the task records it as the error of the job, and no
    result file is set. *)
Theorem successful_download_fails_job (env : retrieval_env)
    (to_csv_r : pyresult unit) (job_id : pystr)
    (jobs : gmap pystr (gmap pystr jobval)) (fields : gmap pystr jobval)
    (row : row) plat_link api_no numbers :
  jobs !! job_id = Some fields ->
  browser_works env ->
  has_link row plat_link api_no ->
  succeeds (r_visits env 0) numbers ->
  ∃ jobs' fields',
    scrape_and_save_task (Some (Ok [row])) env to_csv_r job_id jobs
    = Some (Ok jobs')
    ∧ jobs' !! job_id = Some fields'
    ∧ fields' !! py "status" = Some (JStr (py "failed"))
    ∧ fields' !! py "error" = Some (JError ValueError)
    ∧ fields' !! py "result_file" = fields !! py "result_file".
Proof.
  intros Hjob Henv Hrow Hvisit. unfold scrape_and_save_task.
  rewrite (set_field_registered _ _ _ _ _ Hjob).
  rewrite download_run by exact Henv.
  cbn [records_loop]. unfold mbind at 1, session_bind at 1.
  rewrite (visit_record_success _ _ _ _ numbers) by done.
  unfold mret, session_ret, set_column. cbn [length].
  destruct (decide (0 = 1)) as [|_]; [discriminate|].
  rewrite (job_failed_registered _ _ _ _ (lookup_insert_eq _ _ _)).
  eexists _, _. split; [reflexivity|]. split; [apply lookup_insert_eq|].
  split; [by rewrite lookup_insert_ne, lookup_insert_eq|].
  split; [apply lookup_insert_eq|].
  by rewrite !lookup_insert_ne.
Qed.

Lemma successful_download_fails_job_witness :
  ∃ jobs' fields',
    scrape_and_save_task (Some (Ok [Sample.andrews_1]))
      (Sample.browser (fun _ => Sample.viewer [py "1"])) (Ok tt) (py "job-1")
      More.pending
    = Some (Ok jobs')
    ∧ jobs' !! py "job-1" = Some fields'
    ∧ fields' !! py "status" = Some (JStr (py "failed"))
    ∧ fields' !! py "error" = Some (JError ValueError)
    ∧ fields' !! py "result_file" = None.
Proof.
  apply (successful_download_fails_job
           (Sample.browser (fun _ => Sample.viewer [py "1"])) (Ok tt)
           (py "job-1") More.pending More.pending_fields
           Sample.andrews_1 (py "http://d/1") (py "42-003-1") [py "1"]).
  - vm_compute. reflexivity.
  - repeat split.
  - repeat split; try reflexivity; vm_compute; discriminate.
  - repeat split.
Defined.

Lemma startswith_app (p s : pystr) : startswith p (p ++ s) = true.
Proof.
  induction p as [|c p IH]; [reflexivity|].
  cbn [app startswith]. by rewrite N.eqb_refl, IH.
Qed.

Lemma replace_first_prefix (old new s : pystr) :
  replace_first old new (old ++ s) = new ++ s.
Proof.
  destruct (old ++ s) as [|c r] eqn:Hs.
  - apply app_eq_nil in Hs as [-> ->]. reflexivity.
  - cbn [replace_first]. rewrite <- Hs, startswith_app.
    by rewrite drop_app_length.
Qed.

Lemma startswith_slash_below (below s : pystr) :
  below ≠ [] ->
  startswith (py "/") (below ++ s) = startswith (py "/") below.
Proof. by destruct below. Qed.

Lemma path_join_data (relative : pystr) :
  startswith (py "/") relative = false ->
  path_join (py "data") relative = py "data/" ++ relative.
Proof. intros Hrel. unfold path_join. by rewrite Hrel. Qed.

(** The listed name of a file leads back to the file. *)
Lemma relative_path_round_trip (root name : pystr) :
  walked root -> startswith (py "/") name = false ->
  path_join (py "data")
            (replace_first (py "data/") [] (path_join root name))
  = path_join root name.
Proof.
  intros [-> | (below & -> & Hbelow & Hslash)] Hname.
  - rewrite (path_join_data name Hname), replace_first_prefix.
    by apply path_join_data.
  - unfold path_join at 2 3. rewrite Hname.
    destruct (bool_decide (py "data/" ++ below = [])
              || endswith_sep (py "data/" ++ below)).
    + rewrite <- app_assoc, replace_first_prefix. cbn [app].
      apply path_join_data. by rewrite startswith_slash_below.
    + rewrite <- app_assoc, replace_first_prefix. cbn [app].
      apply path_join_data. by rewrite startswith_slash_below.
Qed.

(** X22. The two file endpoints agree: a file that [os.walk] finds under
    the data directory is listed under a name that the download endpoint
    leads back to that very file. *)
Theorem listed_file_can_be_downloaded (path_exists : pystr -> bool)
    (walk : list (pystr * list pystr * list pystr)) root dirs files name :
  path_exists (py "data") = true ->
  (root, dirs, files) ∈ walk -> name ∈ files ->
  walked root -> startswith (py "/") name = false ->
  path_exists (path_join root name) = true ->
  ∃ listed relative,
    list_data_files path_exists walk = Files listed
    ∧ relative ∈ listed
    ∧ download_data_file path_exists relative = Reply (path_join root name).
Proof.
  intros Hdata Hwalk Hname Hroot Hplain Hfile.
  unfold list_data_files. rewrite Hdata. cbn [negb].
  eexists _, (replace_first (py "data/") [] (path_join root name)).
  split; [reflexivity|]. split.
  - apply list_elem_of_In, in_flat_map. exists (root, dirs, files).
    split; [by apply list_elem_of_In|].
    cbn [fst snd]. apply in_map_iff. exists name.
    split; [reflexivity|by apply list_elem_of_In].
  - unfold download_data_file.
    rewrite relative_path_round_trip by done. by rewrite Hfile.
Qed.

Lemma listed_file_can_be_downloaded_witness :
  ∃ listed relative,
    list_data_files More.on_data_disk More.data_walk = Files listed
    ∧ relative ∈ listed
    ∧ download_data_file More.on_data_disk relative
      = Reply (py "data/plat_files/ANDREWS/42-003-1_1.tif").
Proof.
  apply (listed_file_can_be_downloaded More.on_data_disk More.data_walk
           (py "data/plat_files/ANDREWS") [] [py "42-003-1_1.tif"]
           (py "42-003-1_1.tif")).
  - reflexivity.
  - apply (bool_decide_unpack _). vm_compute. exact I.
  - left.
  - right. exists (py "plat_files/ANDREWS"). repeat split. discriminate.
  - reflexivity.
  - reflexivity.
Defined.

(** X23. The download endpoint does not keep to the data directory: for a
    path that starts with a separator [os.path.join] drops [data], and the
    file of that absolute path is what the endpoint answers with. *)
Theorem absolute_path_is_served (path_exists : pystr -> bool)
    (file_path : pystr) :
  startswith (py "/") file_path = true ->
  path_exists file_path = true ->
  download_data_file path_exists file_path = Reply file_path.
Proof.
  intros Habs Hfile. unfold download_data_file, path_join.
  by rewrite Habs, Hfile.
Qed.

Lemma absolute_path_is_served_witness :
  download_data_file More.on_data_disk (py "/etc/passwd")
  = Reply (py "/etc/passwd").
Proof. apply absolute_path_is_served; reflexivity. Defined.
